(** * NEXO RRHH: authentication gate, role check and upload lifecycle

    A shallow embedding of [main.py] (a Flask application over SQLite and
    a directory of uploaded files) and the properties of its
    authentication, authorisation and upload handlers.

    Conventions of the embedding.
    - A Python [str] is a [string]; every [ascii] stands for the code
      point of the same number (code points above 255 are not
      represented).
    - The Flask session, the two SQLite tables and the uploads directory
      form the [world] a handler runs in.  Handlers are written in a small
      monad that threads the world, records the store and filesystem
      events in program order and propagates Python exceptions.
    - Paths are POSIX paths.  The routines of the Python library, of
      Flask and of werkzeug that decide a property ([str.strip],
      [Path.suffix], [strftime], [posixpath.normpath], [safe_join], the
      URL rule of a route) are written out here after their library
      definitions.
    - Two werkzeug routines whose result the handlers only pass along
      ([check_password_hash], [secure_filename]) and the deployment path
      [UPLOADS_DIR] are the fields of the class [Platform]. *)

From Stdlib Require Import ZArith String Ascii List Bool Lia Sorted.
From stdpp Require Import gmap strings list.

Local Open Scope string_scope.
Local Open Scope Z_scope.

(** ** Python strings *)

Module PyStr.

(** [str.isspace] on the code points below 256. *)
Definition isspace (c : ascii) : bool :=
  let n := nat_of_ascii c in
  ((9 <=? n) && (n <=? 13) || (28 <=? n) && (n <=? 32)
   || (n =? 133) || (n =? 160))%nat.

(** [s.lstrip()] *)
Fixpoint lstrip (s : string) : string :=
  match s with
  | EmptyString => EmptyString
  | String c r => if isspace c then lstrip r else s
  end.

(** [s.rstrip()] *)
Fixpoint rstrip (s : string) : string :=
  match s with
  | EmptyString => EmptyString
  | String c r =>
      match rstrip r with
      | EmptyString => if isspace c then EmptyString else String c EmptyString
      | r' => String c r'
      end
  end.

(** [s.strip()] *)
Definition strip (s : string) : string := rstrip (lstrip s).

(** Every character of [s] is white space. *)
Fixpoint all_space (s : string) : bool :=
  match s with
  | EmptyString => true
  | String c r => isspace c && all_space r
  end.

(** [str.lower] on one code point below 256: the ASCII capitals and the
    Latin-1 capitals (all of 192..222 but the multiplication sign). *)
Definition lower_char (c : ascii) : ascii :=
  let n := nat_of_ascii c in
  if ((65 <=? n) && (n <=? 90)
      || (192 <=? n) && (n <=? 222) && negb (n =? 215))%nat
  then ascii_of_nat (n + 32) else c.

(** [s.lower()] *)
Fixpoint lower (s : string) : string :=
  match s with
  | EmptyString => EmptyString
  | String c r => String (lower_char c) (lower r)
  end.

(** [c in s] for a single character [c]. *)
Fixpoint has_char (c : ascii) (s : string) : bool :=
  match s with
  | EmptyString => false
  | String d r => Ascii.eqb c d || has_char c r
  end.

(** [s.startswith(p)]: the rest of [s] after the prefix [p], if any. *)
Fixpoint strip_prefix (p s : string) : option string :=
  match p, s with
  | EmptyString, _ => Some s
  | String a p', String b s' =>
      if Ascii.eqb a b then strip_prefix p' s' else None
  | String _ _, EmptyString => None
  end.

Definition startswith (s p : string) : bool :=
  match strip_prefix p s with Some _ => true | None => false end.

(** [s.split(sep)] for a single-character separator. *)
Fixpoint split (sep : ascii) (s : string) : list string :=
  match s with
  | EmptyString => [EmptyString]
  | String c r =>
      if Ascii.eqb c sep then EmptyString :: split sep r
      else match split sep r with
           | [] => [String c EmptyString]
           | w :: ws => String c w :: ws
           end
  end.

(** [sep.join(l)] *)
Fixpoint join (sep : string) (l : list string) : string :=
  match l with
  | [] => EmptyString
  | [w] => w
  | w :: ws => w ++ sep ++ join sep ws
  end.

(** [s.rfind(c)] as the suffix of [s] that starts at the last [c]
    together with its index; [None] is Python's [-1]. *)
Fixpoint rfind_from (c : ascii) (s : string) : option (nat * string) :=
  match s with
  | EmptyString => None
  | String d r =>
      match rfind_from c r with
      | Some (i, t) => Some (S i, t)
      | None => if Ascii.eqb c d then Some (O, s) else None
      end
  end.

(** [s] has an occurrence of [t]. *)
Definition contains (s t : string) : Prop :=
  exists a b, s = a ++ t ++ b.

End PyStr.


(** ** Paths

    The application runs on POSIX paths: [os.path] is [posixpath] and
    [pathlib.Path] is [PurePosixPath] as far as names are concerned. *)

Module PyPath.

Import PyStr.

Definition slash : ascii := "/"%char.
Definition dot : ascii := "."%char.

(** [PurePosixPath(s).name]: the last component of [s], where empty
    components and [.] are dropped when the path is parsed. *)
Definition name (s : string) : string :=
  List.last
    (List.filter (fun c => negb (String.eqb c "") && negb (String.eqb c "."))
                 (split slash s))
    "".

(** [PurePosixPath(s).suffix]: [name[i:]] for [i = name.rfind('.')] when
    [0 < i < len(name) - 1], and the empty string otherwise. *)
Definition suffix (s : string) : string :=
  let n := name s in
  match rfind_from dot n with
  | Some (i, t) =>
      if ((0 <? i) && (i <? String.length n - 1))%nat then t else ""
  | None => ""
  end.

(** [posixpath.join(a, b)] *)
Fixpoint ends_with_slash (s : string) : bool :=
  match s with
  | EmptyString => false
  | String c EmptyString => Ascii.eqb c slash
  | String _ r => ends_with_slash r
  end.

Definition join (a b : string) : string :=
  if startswith b "/" then b
  else if String.eqb a "" || ends_with_slash a then a ++ b
  else a ++ "/" ++ b.

(** The loop of [posixpath.normpath] over the components; [acc] holds
    [new_comps] with its last element first. *)
Fixpoint normpath_comps (initial_slashes : bool) (comps acc : list string)
  : list string :=
  match comps with
  | [] => List.rev acc
  | c :: cs =>
      if String.eqb c "" || String.eqb c "." then
        normpath_comps initial_slashes cs acc
      else if negb (String.eqb c "..")
              || (negb initial_slashes && match acc with [] => true | _ => false end)
              || match acc with p :: _ => String.eqb p ".." | [] => false end
      then normpath_comps initial_slashes cs (c :: acc)
      else normpath_comps initial_slashes cs (List.tl acc)
  end.

(** [posixpath.normpath(path)] *)
Definition normpath (path : string) : string :=
  if String.eqb path "" then "." else
  let initial_slashes :=
    if startswith path "/" then
      if startswith path "//" && negb (startswith path "///") then "//"
      else "/"
    else "" in
  let comps :=
    normpath_comps (negb (String.eqb initial_slashes ""))
                   (split slash path) [] in
  let p := initial_slashes ++ PyStr.join "/" comps in
  if String.eqb p "" then "." else p.

(** [werkzeug.security.safe_join(directory, filename)] with one untrusted
    name; there are no alternative separators on POSIX. *)
Definition safe_join (directory filename : string) : option string :=
  let directory := if String.eqb directory "" then "." else directory in
  let filename :=
    if String.eqb filename "" then filename else normpath filename in
  if startswith filename "/" || String.eqb filename ".."
     || startswith filename "../"
  then None
  else Some (join directory filename).

End PyPath.

(** ** Time stamps *)

(** What [datetime.now()] returns. *)
Record datetime := {
  year : Z; month : Z; day : Z;
  hour : Z; minute : Z; second : Z; microsecond : Z }.

Definition digit (n : Z) : ascii := ascii_of_nat (Z.to_nat (48 + n mod 10)).

(** A field printed on two digits ([%m], [%d], [%H], [%M], [%S]). *)
Definition dec2 (n : Z) : string :=
  String (digit (n / 10)) (String (digit n) EmptyString).

(** [%Y] for a year of four digits. *)
Definition dec4 (n : Z) : string :=
  String (digit (n / 1000)) (String (digit (n / 100)) (dec2 n)).

(** [t.strftime("%Y%m%d_%H%M%S")] *)
Definition strftime (t : datetime) : string :=
  dec4 (year t) ++ dec2 (month t) ++ dec2 (day t) ++ "_"
  ++ dec2 (hour t) ++ dec2 (minute t) ++ dec2 (second t).

(** The ranges of the fields of a [datetime] (with a four-digit year). *)
Definition valid_datetime (t : datetime) : Prop :=
  1000 <= year t <= 9999 /\ 1 <= month t <= 12 /\ 1 <= day t <= 31
  /\ 0 <= hour t <= 23 /\ 0 <= minute t <= 59 /\ 0 <= second t <= 59
  /\ 0 <= microsecond t <= 999999.

(** Two instants within the same second. *)
Definition same_second (t1 t2 : datetime) : Prop :=
  year t1 = year t2 /\ month t1 = month t2 /\ day t1 = day t2
  /\ hour t1 = hour t2 /\ minute t1 = minute t2 /\ second t1 = second t2.

(** ** The store, the session and the filesystem *)

(** [ROLES], the values the [CHECK] constraint of [users.role] admits. *)
Inductive Role := SUPERADMIN | ADMIN | RRHH | LECTOR.

Definition Role_eqb (a b : Role) : bool :=
  match a, b with
  | SUPERADMIN, SUPERADMIN | ADMIN, ADMIN | RRHH, RRHH | LECTOR, LECTOR => true
  | _, _ => false
  end.

(** A row of the table [users]. *)
Record user_row := {
  user_id : Z;
  username : string;
  pass_hash : string;
  role : Role;
  is_active : Z;
  created_at : string }.

(** A row of the table [uploads]. *)
Record upload_row := {
  upload_id : Z;
  original_name : string;
  stored_name : string;
  uploaded_by : Z;
  uploaded_at : string;
  notes : option string }.

Record database := {
  users_table : list user_row;
  uploads_table : list upload_row }.

(** The Flask session: the keys [uid] and [theme] and the flashed
    messages, kept as (category, message) pairs. *)
Record session := {
  uid : option Z;
  theme : option string;
  flashes : list (string * string) }.

Record world := {
  sess : session;
  db : database;
  fs : gmap string (list Byte.byte) }.

Definition with_sess (s : session) (w : world) : world :=
  {| sess := s; db := db w; fs := fs w |}.

Definition with_db (d : database) (w : world) : world :=
  {| sess := sess w; db := d; fs := fs w |}.

Definition with_fs (f : gmap string (list Byte.byte)) (w : world) : world :=
  {| sess := sess w; db := db w; fs := f |}.

(** ** Handlers as computations over the world *)

(** What a handler does to the store and to the filesystem. *)
Inductive event :=
| FsWrite (path : string) (data : list Byte.byte)
| FsIsFile (path : string)
| FsRead (path : string)
| DbInsertUpload (row : upload_row).

(** The Python exceptions the handlers can raise and do not catch. *)
Inductive fault :=
| TypeError        (* 'NoneType' object is not subscriptable *)
| IntegrityError.  (* FOREIGN KEY constraint failed *)

(** The events of a run in program order, each with the world right
    after it, the world at the end and the value or the exception. *)
Record outcome (A : Type) := Outcome {
  trace : list (event * world);
  final : world;
  result : fault + A }.

Arguments Outcome {A} _ _ _.
Arguments trace {A} _.
Arguments final {A} _.
Arguments result {A} _.

Definition M (A : Type) : Type := world -> outcome A.

Definition ret {A : Type} (a : A) : M A :=
  fun w => Outcome [] w (inr a).

Definition bind {A B : Type} (m : M A) (k : A -> M B) : M B :=
  fun w =>
    let o := m w in
    match result o with
    | inl e => Outcome (trace o) (final o) (inl e)
    | inr a =>
        let o' := k a (final o) in
        Outcome (trace o ++ trace o') (final o') (result o')
    end.

Definition raise {A : Type} (e : fault) : M A :=
  fun w => Outcome [] w (inl e).

Definition get_world : M world :=
  fun w => Outcome [] w (inr w).

Definition put_sess (s : session) : M unit :=
  fun w => Outcome [] (with_sess s w) (inr tt).

(** An action on the store or on the filesystem: one event. *)
Definition act {A : Type} (e : event) (w' : world) (a : A) : M A :=
  fun _ => Outcome [(e, w')] w' (inr a).

Declare Scope handler_scope.
Delimit Scope handler_scope with handler.
Notation "'do' x <- m ; k" := (bind m (fun x => k))
  (at level 10, x name, m at level 100, k at level 200) : handler_scope.
Notation "'do_' m ; k" := (bind m (fun _ => k))
  (at level 10, m at level 100, k at level 200) : handler_scope.
Local Open Scope handler_scope.

(** The intermediate states of a run: the world after each event. *)
Definition states_of {A : Type} (o : outcome A) : list world :=
  List.map snd (trace o).

(** The events of a run without the states. *)
Definition events_of {A : Type} (o : outcome A) : list event :=
  List.map fst (trace o).

(** *** Responses *)

Inductive endpoint := ep_login | ep_dashboard.

Definition url_for (e : endpoint) : string :=
  match e with
  | ep_login => "/login"
  | ep_dashboard => "/dashboard"
  end.

(** The [body_html] of a page, by the data it is built from. *)
Inductive page_body :=
| LoginBody
| DashboardBody (rows : list (upload_row * string)) (admin_block : bool)
| UsersBody (rows : list user_row).

(** The arguments [render_page] gives to the template. *)
Record page := {
  body : page_body;
  title : string;
  subtitle : string;
  page_user : option user_row;
  page_theme : string;
  page_flashes : list (string * string) }.

Inductive response :=
| Redirect (location : string)
| Html (p : page)
| Attachment (path : string) (data : list Byte.byte)
| NotFound.   (* werkzeug's NotFound, answered as 404 *)

(** *** Requests *)

(** A [FileStorage]; an absent filename is the empty one. *)
Record file_storage := {
  filename : string;
  content : list Byte.byte }.

(** The form fields and the file of a request, with the two clocks
    read while it is served: [datetime.now()] and SQLite's
    [datetime('now')]. *)
Record request := {
  form_username : option string;
  form_password : option string;
  form_notes : option string;
  files_file : option file_storage;
  now : datetime;
  db_now : string }.

(** [x or ""] for a form field. *)
Definition or_empty (x : option string) : string :=
  match x with Some s => s | None => "" end.

(** ** Queries and statements *)

(** [SELECT * FROM users WHERE id=? AND is_active=1], [fetchone()] *)
Definition select_active_user_by_id (i : Z) (d : database)
  : option user_row :=
  List.find (fun u => (user_id u =? i) && (is_active u =? 1))
            (users_table d).

(** [SELECT * FROM users WHERE username=? AND is_active=1], [fetchone()] *)
Definition select_active_user_by_username (n : string) (d : database)
  : option user_row :=
  List.find (fun u => String.eqb (username u) n && (is_active u =? 1))
            (users_table d).

(** Insertion into a list ordered by [key], after the equal keys. *)
Fixpoint insert_by {A : Type} (le : A -> A -> bool) (x : A) (l : list A)
  : list A :=
  match l with
  | [] => [x]
  | y :: r => if le y x then y :: insert_by le x r else x :: l
  end.

(** [ORDER BY] as a stable sort. *)
Definition order_by {A : Type} (le : A -> A -> bool) (l : list A) : list A :=
  List.fold_left (fun acc x => insert_by le x acc) l [].

(** [SELECT id, username, role, is_active, created_at FROM users
    ORDER BY id] *)
Definition select_users (d : database) : list user_row :=
  order_by (fun a b => user_id a <=? user_id b) (users_table d).

(** [SELECT up.*, us.username AS uploader FROM uploads up JOIN users us
    ON us.id = up.uploaded_by ORDER BY up.id DESC LIMIT 20] *)
Definition select_recent_uploads (d : database)
  : list (upload_row * string) :=
  List.firstn 20
    (order_by (fun a b => upload_id (fst b) <=? upload_id (fst a))
       (List.flat_map
          (fun up =>
             List.map (fun us => (up, username us))
               (List.filter (fun us => user_id us =? uploaded_by up)
                            (users_table d)))
          (uploads_table d))).

(** The key [AUTOINCREMENT] gives to the next row of [uploads]. *)
Definition next_upload_id (d : database) : Z :=
  1 + List.fold_right Z.max 0 (List.map upload_id (uploads_table d)).

(** [FOREIGN KEY(uploaded_by) REFERENCES users(id)], enforced since
    [get_conn] sets [PRAGMA foreign_keys=ON]. *)
Definition references_user (i : Z) (d : database) : bool :=
  List.existsb (fun u => user_id u =? i) (users_table d).

(** The world with one more row in [uploads]. *)
Definition recorded (row : upload_row) (w : world) : world :=
  with_db {| users_table := users_table (db w);
             uploads_table := uploads_table (db w) ++ [row] |} w.

(** The row an insert makes: the key and [uploaded_at] are filled in by
    the store. *)
Definition new_upload_row (d : database) (original stored : string)
  (uploader : Z) (note at_time : string) : upload_row :=
  {| upload_id := next_upload_id d;
     original_name := original;
     stored_name := stored;
     uploaded_by := uploader;
     uploaded_at := at_time;
     notes := Some note |}.

(** [INSERT INTO uploads (original_name, stored_name, uploaded_by, notes)
    VALUES (?, ?, ?, ?)] inside [with get_conn() as conn]: the row is
    committed, or the statement raises and nothing is stored. *)
Definition insert_upload (original stored : string) (uploader : Z)
  (note : string) (at_time : string) : M unit :=
  fun w =>
    if references_user uploader (db w) then
      let row := new_upload_row (db w) original stored uploader note at_time in
      act (DbInsertUpload row) (recorded row w) tt w
    else raise IntegrityError w.

(** The world with the file at [path] created or replaced. *)
Definition saved (path : string) (data : list Byte.byte) (w : world)
  : world :=
  with_fs (<[path := data]> (fs w)) w.

(** [f.save(path)] *)
Definition fs_save (path : string) (data : list Byte.byte) : M unit :=
  fun w => act (FsWrite path data) (saved path data w) tt w.

(** [os.path.isfile(path)] *)
Definition fs_isfile (path : string) : M bool :=
  fun w => act (FsIsFile path) w (bool_decide (is_Some (fs w !! path))) w.

(** The bytes [send_file] streams. *)
Definition fs_read (path : string) : M (list Byte.byte) :=
  fun w => act (FsRead path) w (default [] (fs w !! path)) w.

(** [flash(message, category)] *)
Definition flash (message category : string) : M unit :=
  do w <- get_world;
  put_sess {| uid := uid (sess w);
              theme := theme (sess w);
              flashes := flashes (sess w) ++ [(category, message)] |}.

(** [get_flashed()]: the messages are handed out and leave the session. *)
Definition get_flashed : M (list (string * string)) :=
  do w <- get_world;
  do_ put_sess {| uid := uid (sess w);
                  theme := theme (sess w);
                  flashes := [] |};
  ret (flashes (sess w)).

(** [redirect(url_for(e))] *)
Definition redirect (e : endpoint) : M response :=
  ret (Redirect (url_for e)).

(** ** Configuration and library routines *)

Definition APP_NAME : string := "NEXO RRHH".

Definition ALLOWED_EXT : gset string := {[ ".xlsx"; ".xls" ]}.

(** The character of a code point, for the accented letters of the
    messages. *)
Definition chr (n : nat) : string := String (ascii_of_nat n) EmptyString.

Definition MSG_FORBIDDEN : string :=
  "No ten" ++ chr 233 ++ "s permisos para entrar ah" ++ chr 237 ++ ".".
Definition MSG_BAD_LOGIN : string :=
  "Usuario o contrase" ++ chr 241 ++ "a incorrectos.".
Definition MSG_LOGGED_IN : string := "Listo, entraste.".
Definition MSG_NO_FILE : string :=
  "No seleccionaste ning" ++ chr 250 ++ "n archivo.".
Definition MSG_BAD_FORMAT : string :=
  "Formato no soportado. Sub" ++ chr 237 ++ " .xls o .xlsx".
Definition MSG_UPLOADED : string := "Excel subido OK.".

(** What the application takes from werkzeug and from its deployment:
    - [check_password_hash(pwhash, password)];
    - [secure_filename(filename)];
    - [str(UPLOADS_DIR)], the directory of the uploaded files. *)
Class Platform := {
  check_password_hash : string -> string -> bool;
  secure_filename : string -> string;
  UPLOADS_DIR : string }.

(** ** The application *)

Section App.

Context {P : Platform}.

(** *** Auth helpers *)

(** [not uid] is false for a session value: it is absent or it is [0]. *)
Definition truthy (u : option Z) : bool :=
  match u with
  | Some i => negb (i =? 0)
  | None => false
  end.

Definition current_user : M (option user_row) :=
  do w <- get_world;
  match uid (sess w) with
  | Some i =>
      if negb (truthy (Some i)) then ret None
      else ret (select_active_user_by_id i (db w))
  | None => ret None
  end.

Definition login_required (f : M response) : M response :=
  do w <- get_world;
  if negb (truthy (uid (sess w))) then redirect ep_login
  else f.

(** [not u or u["role"] not in roles], negated. *)
Definition authorized (u : option user_row) (roles : list Role) : bool :=
  match u with
  | Some r => List.existsb (Role_eqb (role r)) roles
  | None => false
  end.

Definition require_roles (roles : list Role) (f : M response)
  : M response :=
  do u <- current_user;
  if negb (authorized u roles) then
    do_ flash MSG_FORBIDDEN "error";
    redirect ep_dashboard
  else f.

(** *** Pages *)

Definition render_page (b : page_body) (t st : string) : M response :=
  do u <- current_user;
  do w <- get_world;
  let th := default "light" (theme (sess w)) in
  do fl <- get_flashed;
  ret (Html {| body := b; title := t; subtitle := st;
               page_user := u; page_theme := th; page_flashes := fl |}).

(** *** Routes *)

Definition index : M response :=
  do w <- get_world;
  if truthy (uid (sess w)) then redirect ep_dashboard
  else redirect ep_login.

Definition login : M response :=
  render_page LoginBody APP_NAME "Login".

Definition login_post (req : request) : M response :=
  let username := PyStr.strip (or_empty (form_username req)) in
  let password := or_empty (form_password req) in
  do w <- get_world;
  let u := select_active_user_by_username username (db w) in
  match u with
  | Some r =>
      if negb (check_password_hash (pass_hash r) password) then
        do_ flash MSG_BAD_LOGIN "error";
        redirect ep_login
      else
        do_ put_sess {| uid := Some (user_id r);
                        theme := theme (sess w);
                        flashes := flashes (sess w) |};
        do_ flash MSG_LOGGED_IN "ok";
        redirect ep_dashboard
  | None =>
      do_ flash MSG_BAD_LOGIN "error";
      redirect ep_login
  end.

Definition logout : M response :=
  do_ put_sess {| uid := None; theme := None; flashes := [] |};
  redirect ep_login.

(** [u["role"]], [u["id"]]: subscripting [None] raises [TypeError]. *)
Definition subscript {A : Type} (u : option user_row) (col : user_row -> A)
  : M A :=
  match u with
  | Some r => ret (col r)
  | None => raise TypeError
  end.

Definition dashboard : M response :=
  do u <- current_user;
  do w <- get_world;
  let uploads := select_recent_uploads (db w) in
  do r <- subscript u role;
  let admin_block := Role_eqb r SUPERADMIN || Role_eqb r ADMIN in
  render_page (DashboardBody uploads admin_block) APP_NAME
              "Sistema local RRHH".

(** [f"{stamp}__{safe}"] *)
Definition stored_name_for (t : datetime) (original : string) : string :=
  strftime t ++ "__" ++ secure_filename original.

(** [UPLOADS_DIR / stored]; a stored name begins with the stamp, so the
    path is the directory followed by the name. *)
Definition upload_path (stored : string) : string :=
  PyPath.join UPLOADS_DIR stored.

(** The end of [upload], from [with get_conn() as conn] on, for the row
    [u] that [current_user()] gave at the start of the request. *)
Definition upload_record (original stored : string) (u : option user_row)
  (note at_time : string) : M response :=
  do i <- subscript u user_id;
  do_ insert_upload original stored i note at_time;
  do_ flash MSG_UPLOADED "ok";
  redirect ep_dashboard.

Definition upload (req : request) : M response :=
  do u <- current_user;
  match files_file req with
  | Some f =>
      if String.eqb (filename f) "" then
        do_ flash MSG_NO_FILE "error";
        redirect ep_dashboard
      else
        let ext := PyStr.lower (PyPath.suffix (filename f)) in
        if negb (bool_decide (ext ∈ ALLOWED_EXT)) then
          do_ flash MSG_BAD_FORMAT "error";
          redirect ep_dashboard
        else
          let original := filename f in
          let stored := stored_name_for (now req) original in
          let path := upload_path stored in
          do_ fs_save path (content f);
          let note := PyStr.strip (or_empty (form_notes req)) in
          upload_record original stored u note (db_now req)
  | None =>
      do_ flash MSG_NO_FILE "error";
      redirect ep_dashboard
  end.

(** [werkzeug.utils.send_from_directory(directory, path)] *)
Definition send_from_directory (directory path : string) : M response :=
  match PyPath.safe_join directory path with
  | None => ret NotFound
  | Some p =>
      do isfile <- fs_isfile p;
      if negb isfile then ret NotFound
      else do data <- fs_read p; ret (Attachment p data)
  end.

Definition download_upload (name : string) : M response :=
  send_from_directory UPLOADS_DIR name.

Definition users : M response :=
  do w <- get_world;
  let rows := select_users (db w) in
  render_page (UsersBody rows) APP_NAME
              ("Administraci" ++ chr 243 ++ "n de usuarios").

(** *** The decorated views, as the URL map holds them *)

Definition GET_dashboard : M response := login_required dashboard.

Definition POST_upload (req : request) : M response :=
  login_required (upload req).

Definition GET_users : M response :=
  login_required (require_roles [SUPERADMIN; ADMIN] users).

(** The rule [/uploads/<name>]: the default converter takes one
    non-empty path segment, without a slash. *)
Definition match_uploads_rule (path_info : string) : option string :=
  match PyStr.strip_prefix "/uploads/" path_info with
  | Some name =>
      if negb (String.eqb name "") && negb (PyStr.has_char PyPath.slash name)
      then Some name else None
  | None => None
  end.

(** A GET request whose path begins with [/uploads/]: no other rule of
    the application takes such a path, so it is answered by
    [download_upload] behind [login_required], or not found. *)
Definition GET_uploads (path_info : string) : M response :=
  match match_uploads_rule path_info with
  | Some name => login_required (download_upload name)
  | None => ret NotFound
  end.

End App.

(** ** Start-up and the theme switch *)

(** The key [AUTOINCREMENT] gives to the next row of [users]; no row of
    [users] is ever deleted, so it is one more than the greatest key. *)
Definition next_user_id (d : database) : Z :=
  1 + List.fold_right Z.max 0 (List.map user_id (users_table d)).

(** [init_db()]: the tables are created if they are missing, which
    leaves their rows alone, and the account [admin] is inserted when
    [users] has no row.  [admin_hash] is what
    [generate_password_hash("admin123")] returned, a salted value that
    differs from call to call, and [at_time] is [datetime('now')];
    [is_active] takes its default. *)
Definition init_db (admin_hash at_time : string) (d : database)
  : database :=
  if (Z.of_nat (List.length (users_table d)) =? 0) then
    {| users_table :=
         users_table d
         ++ [{| user_id := next_user_id d;
                username := "admin";
                pass_hash := admin_hash;
                role := SUPERADMIN;
                is_active := 1;
                created_at := at_time |}];
       uploads_table := uploads_table d |}
  else d.

(** [session.get("theme", "light")] *)
Definition session_theme (s : session) : string :=
  default "light" (theme s).

(** [toggle_theme()], for the [Referer] header of the request. *)
Definition toggle_theme (referer : option string) : M response :=
  do w <- get_world;
  do_ put_sess {| uid := uid (sess w);
                  theme := Some (if String.eqb (session_theme (sess w)) "light"
                                 then "dark" else "light");
                  flashes := flashes (sess w) |};
  let ref := match referer with
             | Some r => if String.eqb r "" then url_for ep_dashboard else r
             | None => url_for ep_dashboard
             end in
  ret (Redirect ref).

(** ** Properties of a world *)

(** [username TEXT NOT NULL UNIQUE] *)
Definition unique_usernames (d : database) : Prop :=
  NoDup (List.map username (users_table d)).

(** [id INTEGER PRIMARY KEY AUTOINCREMENT]: the keys are distinct and
    start at 1. *)
Definition primary_keys (d : database) : Prop :=
  NoDup (List.map user_id (users_table d))
  /\ forall r, In r (users_table d) -> 0 < user_id r.

(** The row [r] is an active account named [n] whose hash matches [pw]. *)
Definition credentials_ok {P : Platform} (d : database) (n pw : string)
  (r : user_row) : Prop :=
  In r (users_table d) /\ username r = n /\ is_active r = 1
  /\ check_password_hash (pass_hash r) pw = true.

(** No row of [users] with the id [i] is active. *)
Definition inactive_in (i : Z) (d : database) : Prop :=
  forall r, In r (users_table d) -> user_id r = i -> is_active r <> 1.

(** The value of [current_user()] in a world. *)
Definition resolved_user (w : world) : option user_row :=
  match result (current_user w) with
  | inr u => u
  | inl _ => None
  end.

(** The outcome of a view that answers at once, without an event. *)
Definition answers (w' : world) (r : response) : outcome response :=
  Outcome [] w' (inr r).

(** The world whose session is bound to the user id [i]. *)
Definition bound_to (i : Z) (w : world) : world :=
  with_sess {| uid := Some i;
               theme := theme (sess w);
               flashes := flashes (sess w) |} w.

(** The session with one more flashed message. *)
Definition flashed (category message : string) (w : world) : world :=
  with_sess {| uid := uid (sess w);
               theme := theme (sess w);
               flashes := flashes (sess w) ++ [(category, message)] |} w.

(** Every row of [uploads] names a file that is in the uploads
    directory. *)
Definition no_dangling {P : Platform} (w : world) : Prop :=
  forall row, In row (uploads_table (db w)) ->
    is_Some (fs w !! upload_path (stored_name row)).

(** The directory [safe_join] resolves names in. *)
Definition storage_root {P : Platform} : string :=
  if String.eqb UPLOADS_DIR "" then "." else UPLOADS_DIR.

(** ** A deployment for the examples *)

(** A stand-in for werkzeug's password hashing: the hash of a password
    is the password behind a tag. *)
Definition demo_check_password_hash (pwhash password : string) : bool :=
  String.eqb pwhash ("plain$" ++ password).

(** [filename.split()] *)
Fixpoint split_whitespace (s : string) : list string :=
  match s with
  | EmptyString => []
  | String c r =>
      if PyStr.isspace c then split_whitespace r
      else match r with
           | EmptyString => [String c EmptyString]
           | String d _ =>
               if PyStr.isspace d then String c EmptyString :: split_whitespace r
               else match split_whitespace r with
                    | w :: ws => String c w :: ws
                    | [] => [String c EmptyString]
                    end
           end
  end.

Fixpoint map_chars (f : ascii -> ascii) (s : string) : string :=
  match s with
  | EmptyString => EmptyString
  | String c r => String (f c) (map_chars f r)
  end.

Fixpoint filter_chars (p : ascii -> bool) (s : string) : string :=
  match s with
  | EmptyString => EmptyString
  | String c r => if p c then String c (filter_chars p r) else filter_chars p r
  end.

Fixpoint lstrip_chars (p : ascii -> bool) (s : string) : string :=
  match s with
  | EmptyString => EmptyString
  | String c r => if p c then lstrip_chars p r else s
  end.

Fixpoint rstrip_chars (p : ascii -> bool) (s : string) : string :=
  match s with
  | EmptyString => EmptyString
  | String c r =>
      match rstrip_chars p r with
      | EmptyString => if p c then EmptyString else String c EmptyString
      | r' => String c r'
      end
  end.

(** The characters of [[A-Za-z0-9_.-]]. *)
Definition is_filename_char (c : ascii) : bool :=
  let n := nat_of_ascii c in
  ((65 <=? n) && (n <=? 90) || (97 <=? n) && (n <=? 122)
   || (48 <=? n) && (n <=? 57) || (n =? 95) || (n =? 46) || (n =? 45))%nat.

Definition is_dot_or_underscore (c : ascii) : bool :=
  let n := nat_of_ascii c in ((n =? 46) || (n =? 95))%nat.

(** [werkzeug.utils.secure_filename] on a name of ASCII characters, on
    POSIX: the separators become spaces, the words are joined by [_],
    the characters outside [[A-Za-z0-9_.-]] are removed and the dots and
    underscores at both ends are stripped. *)
Definition secure_filename_ascii (name : string) : string :=
  let spaced :=
    map_chars (fun c => if Ascii.eqb c PyPath.slash then " "%char else c)
              name in
  let joined := PyStr.join "_" (split_whitespace spaced) in
  let kept := filter_chars is_filename_char joined in
  rstrip_chars is_dot_or_underscore (lstrip_chars is_dot_or_underscore kept).

Definition demo : Platform := {|
  check_password_hash := demo_check_password_hash;
  secure_filename := secure_filename_ascii;
  UPLOADS_DIR := "/srv/nexo/data/uploads" |}.

(** The account [init_db] creates, and an account that was switched
    off. *)
Definition admin_row : user_row := {|
  user_id := 1; username := "admin"; pass_hash := "plain$admin123";
  role := SUPERADMIN; is_active := 1; created_at := "2026-01-05 08:00:00" |}.

Definition ana_row : user_row := {|
  user_id := 2; username := "ana"; pass_hash := "plain$secreta";
  role := LECTOR; is_active := 0; created_at := "2026-01-06 09:30:00" |}.

Definition demo_db : database := {|
  users_table := [admin_row; ana_row];
  uploads_table := [] |}.

Definition session_of (u : option Z) : session :=
  {| uid := u; theme := None; flashes := [] |}.

Definition demo_world (u : option Z) : world :=
  {| sess := session_of u; db := demo_db; fs := ∅ |}.

Definition login_form (user pw : string) (t : datetime) : request := {|
  form_username := Some user; form_password := Some pw;
  form_notes := None; files_file := None;
  now := t; db_now := "2026-01-07 12:00:00" |}.

Definition upload_form (name : string) (data : list Byte.byte)
  (t : datetime) : request := {|
  form_username := None; form_password := None;
  form_notes := Some "enero"; files_file := Some {| filename := name; content := data |};
  now := t; db_now := "2026-01-07 12:00:00" |}.

Definition noon (micro : Z) : datetime := {|
  year := 2026; month := 1; day := 7;
  hour := 12; minute := 0; second := 0; microsecond := micro |}.

Definition one_pm : datetime := {|
  year := 2026; month := 1; day := 7;
  hour := 13; minute := 0; second := 0; microsecond := 0 |}.

(** ** More properties of a world *)

(** A store that was just created. *)
Definition empty_db : database :=
  {| users_table := []; uploads_table := [] |}.

(** The world whose pending messages were handed out. *)
Definition unflashed (w : world) : world :=
  with_sess {| uid := uid (sess w);
               theme := theme (sess w);
               flashes := [] |} w.

(** The page [render_page] makes in the world [w]. *)
Definition page_in (w : world) (b : page_body) (t st : string) : page :=
  {| body := b; title := t; subtitle := st;
     page_user := resolved_user w;
     page_theme := session_theme (sess w);
     page_flashes := flashes (sess w) |}.

(** [FOREIGN KEY(uploaded_by) REFERENCES users(id)] holds of every row. *)
Definition fk_integrity (d : database) : Prop :=
  forall row, In row (uploads_table d) ->
    references_user (uploaded_by row) d = true.

(** The keys of [uploads] are distinct and start at 1. *)
Definition upload_keys (d : database) : Prop :=
  NoDup (List.map upload_id (uploads_table d))
  /\ forall row, In row (uploads_table d) -> 0 < upload_id row.

(** From [w] to [w']: the accounts are the same, the rows of [uploads]
    are kept in place with new rows after them, and every file that was
    there still is. *)
Definition grows_from (w w' : world) : Prop :=
  users_table (db w') = users_table (db w)
  /\ (exists new, uploads_table (db w') = (uploads_table (db w) ++ new)%list)
  /\ (forall p, is_Some (fs w !! p) -> is_Some (fs w' !! p)).

(** An event that changes the store or the filesystem. *)
Definition is_write (e : event) : bool :=
  match e with
  | FsWrite _ _ | DbInsertUpload _ => true
  | FsIsFile _ | FsRead _ => false
  end.

(** * Properties *)

(** Unfolding of the handler monad. *)
Ltac run :=
  unfold answers, redirect, flash, get_flashed, subscript, put_sess,
    get_world, act, raise, bind, ret; simpl.

(** ** The current user *)

Lemma find_none_intro {A : Type} (f : A -> bool) (l : list A) :
  (forall x, In x l -> f x = false) -> List.find f l = None.
Proof.
  induction l as [|a l IH]; intros Hall; [reflexivity|]. simpl.
  rewrite (Hall a (or_introl eq_refl)).
  apply IH. intros x Hx. apply Hall. right. exact Hx.
Qed.

Lemma find_none_inactive (i : Z) (d : database) :
  inactive_in i d -> select_active_user_by_id i d = None.
Proof.
  unfold inactive_in, select_active_user_by_id.
  intros Hin. apply find_none_intro. intros r Hr.
  destruct (Z.eqb_spec (user_id r) i) as [He|]; [|reflexivity].
  specialize (Hin r Hr He). simpl.
  destruct (Z.eqb_spec (is_active r) 1); [contradiction|reflexivity].
Qed.

Lemma current_user_run (w : world) :
  current_user w = Outcome [] w (inr (resolved_user w)).
Proof.
  unfold resolved_user, current_user. run.
  destruct (uid (sess w)) as [i|]; simpl; [|reflexivity].
  destruct (i =? 0); reflexivity.
Qed.

Lemma resolved_user_eq (w : world) :
  resolved_user w =
  match uid (sess w) with
  | Some i => if i =? 0 then None else select_active_user_by_id i (db w)
  | None => None
  end.
Proof.
  unfold resolved_user, current_user. run.
  destruct (uid (sess w)) as [i|]; simpl; [|reflexivity].
  destruct (i =? 0); reflexivity.
Qed.

(** C3. [current_user] reads the session and the table [users] of the
    world it is called in, without changing either: it gives no user
    when the session has no id and when no active row has the bound id,
    and the active row otherwise.  Hence in any later world [w'] with
    the same session, where the account of the bound id is no longer
    active, it gives no user. *)
Theorem current_user_resolves_each_call (w : world) :
  current_user w = Outcome [] w (inr (resolved_user w))
  /\ (uid (sess w) = None -> resolved_user w = None)
  /\ (forall i, uid (sess w) = Some i -> inactive_in i (db w) ->
        resolved_user w = None)
  /\ (forall i r, uid (sess w) = Some i -> i <> 0 ->
        select_active_user_by_id i (db w) = Some r ->
        resolved_user w = Some r)
  /\ (forall w' i, sess w' = sess w -> uid (sess w) = Some i ->
        inactive_in i (db w') ->
        current_user w' = Outcome [] w' (inr None)).
Proof.
  split; [apply current_user_run|].
  split; [intros Hu; rewrite resolved_user_eq, Hu; reflexivity|].
  split.
  { intros i Hu Hin. rewrite resolved_user_eq, Hu.
    rewrite (find_none_inactive _ _ Hin). destruct (i =? 0); reflexivity. }
  split.
  { intros i r Hu Hi Hsel. rewrite resolved_user_eq, Hu.
    destruct (Z.eqb_spec i 0); [contradiction|assumption]. }
  intros w' i Hs Hu Hin. rewrite current_user_run. f_equal. f_equal.
  rewrite resolved_user_eq, Hs, Hu, (find_none_inactive _ _ Hin).
  destruct (i =? 0); reflexivity.
Qed.

Lemma current_user_resolves_each_call_witness :
  inactive_in 2 demo_db
  /\ current_user (demo_world (Some 2))
     = Outcome [] (demo_world (Some 2)) (inr None).
Proof.
  assert (Hin : inactive_in 2 demo_db).
  { intros r [<-|[<-|[]]]; simpl; intros; discriminate. }
  split; [exact Hin|].
  destruct (current_user_resolves_each_call (demo_world (Some 2)))
    as (_ & _ & _ & _ & Hlater).
  exact (Hlater (demo_world (Some 2)) 2 eq_refl eq_refl Hin).
Defined.

(** ** Routes that require a session *)

Lemma login_required_anonymous (f : M response) (w : world) :
  truthy (uid (sess w)) = false ->
  login_required f w = answers w (Redirect (url_for ep_login)).
Proof. intros Hu. unfold login_required. run. rewrite Hu. reflexivity. Qed.

Lemma login_required_bound (f : M response) (w : world) :
  truthy (uid (sess w)) = true -> login_required f w = f w.
Proof.
  intros Hu. unfold login_required. run. rewrite Hu. simpl.
  destruct (f w) as [t w' [e|r]]; reflexivity.
Qed.

(** C4, as amended.  A request to [/dashboard], [/upload],
    [/uploads/<name>] or [/users] whose session holds no user id (none,
    or [0]) is answered by a redirect to the login page: no exception,
    no event, and the world is left as it was. *)
Theorem login_required_redirects_anonymous {P : Platform} (w : world)
  (req : request) (path name : string) :
  truthy (uid (sess w)) = false ->
  match_uploads_rule path = Some name ->
  GET_dashboard w = answers w (Redirect "/login")
  /\ POST_upload req w = answers w (Redirect "/login")
  /\ GET_uploads path w = answers w (Redirect "/login")
  /\ GET_users w = answers w (Redirect "/login").
Proof.
  intros Hu Hm. unfold GET_dashboard, POST_upload, GET_uploads, GET_users.
  rewrite Hm. repeat split; apply login_required_anonymous; exact Hu.
Qed.

Lemma login_required_redirects_anonymous_witness :
  GET_dashboard (demo_world None) = answers (demo_world None) (Redirect "/login")
  /\ @POST_upload demo (upload_form "a.xlsx" [] (noon 0)) (demo_world None)
     = answers (demo_world None) (Redirect "/login")
  /\ @GET_uploads demo "/uploads/a.xlsx" (demo_world None)
     = answers (demo_world None) (Redirect "/login")
  /\ GET_users (demo_world None) = answers (demo_world None) (Redirect "/login").
Proof.
  apply (@login_required_redirects_anonymous demo (demo_world None)
           (upload_form "a.xlsx" [] (noon 0)) "/uploads/a.xlsx" "a.xlsx");
    reflexivity.
Defined.

(** C4, as stated, fails for a session that is bound to an account that
    is no longer active: [current_user] gives no user, yet [/users]
    redirects to the dashboard, [/uploads/<name>] serves the file, and
    [/dashboard] and [/upload] raise [TypeError]. *)
Lemma stale_session_counterexample :
  let w := with_fs {[ "/srv/nexo/data/uploads/x.xlsx" := [] ]}
                   (demo_world (Some 2)) in
  resolved_user w = None
  /\ result (GET_users w) = inr (Redirect "/dashboard")
  /\ result (@GET_uploads demo "/uploads/x.xlsx" w)
     = inr (Attachment "/srv/nexo/data/uploads/x.xlsx" [])
  /\ result (GET_dashboard w) = inl TypeError
  /\ result (@POST_upload demo (upload_form "a.xlsx" [] (noon 0)) w)
     = inl TypeError.
Proof. vm_compute. repeat split. Qed.

(** ** Roles *)

Lemma Role_eqb_eq (a b : Role) : Role_eqb a b = true <-> a = b.
Proof. destruct a, b; simpl; split; congruence. Qed.

Lemma authorized_iff (u : option user_row) (roles : list Role) :
  authorized u roles = true <-> exists r, u = Some r /\ In (role r) roles.
Proof.
  destruct u as [r|]; simpl.
  - rewrite List.existsb_exists. split.
    + intros [x [Hx He]]. apply Role_eqb_eq in He. subst x. eauto.
    + intros [r' [[= <-] Hin]]. exists (role r). split; [exact Hin|].
      apply Role_eqb_eq. reflexivity.
  - split; [discriminate|]. intros [r [[=] _]].
Qed.

(** C5. [require_roles] lets the view run exactly when the
    current user exists and has one of the roles; in every other case,
    no user included, it flashes one fixed message and redirects to the
    dashboard, whatever the roles were. *)
Theorem require_roles_spec (roles : list Role) (f : M response)
  (w : world) :
  (authorized (resolved_user w) roles = true
   <-> exists r, resolved_user w = Some r /\ In (role r) roles)
  /\ (authorized (resolved_user w) roles = true ->
      require_roles roles f w = f w)
  /\ (authorized (resolved_user w) roles = false ->
      require_roles roles f w
      = answers (flashed "error" MSG_FORBIDDEN w)
                (Redirect (url_for ep_dashboard)))
  /\ (forall roles' f',
      authorized (resolved_user w) roles = false ->
      authorized (resolved_user w) roles' = false ->
      require_roles roles f w = require_roles roles' f' w).
Proof.
  assert (Hden : forall rs g, authorized (resolved_user w) rs = false ->
            require_roles rs g w
            = answers (flashed "error" MSG_FORBIDDEN w)
                      (Redirect (url_for ep_dashboard))).
  { intros rs g Ha. unfold require_roles, bind at 1.
    rewrite current_user_run. simpl. rewrite Ha. reflexivity. }
  split; [apply authorized_iff|]. split.
  { intros Ha. unfold require_roles, bind at 1.
    rewrite current_user_run. simpl. rewrite Ha. simpl.
    destruct (f w) as [t w' [e|r]]; reflexivity. }
  split; [apply Hden|].
  intros roles' f' Ha Ha'. rewrite (Hden _ _ Ha), (Hden _ _ Ha').
  reflexivity.
Qed.

Lemma require_roles_spec_witness :
  require_roles [SUPERADMIN; ADMIN] users (demo_world (Some 1))
  = users (demo_world (Some 1))
  /\ require_roles [RRHH] users (demo_world (Some 1))
     = answers (flashed "error" MSG_FORBIDDEN (demo_world (Some 1)))
               (Redirect "/dashboard").
Proof.
  split.
  - apply (require_roles_spec [SUPERADMIN; ADMIN] users (demo_world (Some 1))).
    reflexivity.
  - apply (require_roles_spec [RRHH] users (demo_world (Some 1))).
    reflexivity.
Defined.

(** ** White space *)

Section Strip.

Import PyStr.

Lemma lstrip_app_space (a s : string) :
  all_space a = true -> lstrip (a ++ s) = lstrip s.
Proof.
  induction a as [|c a IH]; simpl; [reflexivity|].
  intros [Hc Ha]%andb_prop. rewrite Hc. apply IH, Ha.
Qed.

Lemma lstrip_all_space (a : string) : all_space a = true -> lstrip a = "".
Proof.
  induction a as [|c a IH]; simpl; [reflexivity|].
  intros [Hc Ha]%andb_prop. rewrite Hc. apply IH, Ha.
Qed.

Lemma rstrip_all_space (a : string) : all_space a = true -> rstrip a = "".
Proof.
  induction a as [|c a IH]; simpl; [reflexivity|].
  intros [Hc Ha]%andb_prop. rewrite (IH Ha), Hc. reflexivity.
Qed.

Lemma rstrip_app_space (s a : string) :
  all_space a = true -> rstrip (s ++ a) = rstrip s.
Proof.
  intros Ha. induction s as [|c s IH]; simpl.
  - apply rstrip_all_space, Ha.
  - rewrite IH. reflexivity.
Qed.

Lemma strip_app_space (s a : string) :
  all_space a = true -> strip (s ++ a) = strip s.
Proof.
  intros Ha. unfold strip. induction s as [|c s IH]; simpl.
  - change (rstrip (lstrip a) = "").
    rewrite (lstrip_all_space a Ha). reflexivity.
  - destruct (isspace c); [exact IH|].
    change (String c (s ++ a)) with (String c s ++ a).
    apply rstrip_app_space, Ha.
Qed.

Lemma strip_padded (a s b : string) :
  all_space a = true -> all_space b = true ->
  strip (a ++ s ++ b) = strip s.
Proof.
  intros Ha Hb. unfold strip at 1. rewrite (lstrip_app_space _ _ Ha).
  apply (strip_app_space s b Hb).
Qed.

Lemma length_append (a b : string) :
  String.length (a ++ b) = (String.length a + String.length b)%nat.
Proof. induction a as [|c a IH]; simpl; [reflexivity|]. rewrite IH. reflexivity. Qed.

Lemma padded_differs (a p b : string) :
  (a ++ b)%string <> "" -> (a ++ p ++ b)%string <> p.
Proof.
  intros Hne Heq. apply (f_equal String.length) in Heq.
  rewrite !length_append in Heq.
  destruct a; [destruct b; [apply Hne; reflexivity|]|]; simpl in Heq; lia.
Qed.

End Strip.

(** ** Login *)

Section Login.

Context {P : Platform}.

Lemma nodup_map_inj {A B : Type} (f : A -> B) (l : list A) (a b : A) :
  NoDup (List.map f l) -> In a l -> In b l -> f a = f b -> a = b.
Proof.
  induction l as [|x l IH]; simpl; [intros _ []|].
  intros Hnd Ha Hb Hf. apply NoDup_cons in Hnd as [Hx Hl].
  rewrite list_elem_of_In in Hx.
  destruct Ha as [<-|Ha], Hb as [<-|Hb]; try reflexivity.
  - exfalso. apply Hx. rewrite Hf. apply List.in_map, Hb.
  - exfalso. apply Hx. rewrite <- Hf. apply List.in_map, Ha.
  - apply IH; assumption.
Qed.

(** Under the [UNIQUE] constraint the query by name gives the one
    active row of that name. *)
Lemma select_by_username_iff (d : database) (n : string) (r : user_row) :
  unique_usernames d ->
  select_active_user_by_username n d = Some r
  <-> In r (users_table d) /\ username r = n /\ is_active r = 1.
Proof.
  intros Hu. unfold select_active_user_by_username. split.
  - intros Hf. apply List.find_some in Hf as [Hin Hb].
    apply andb_prop in Hb as [Hn Ha].
    apply String.eqb_eq in Hn. apply Z.eqb_eq in Ha. auto.
  - intros (Hin & Hn & Ha).
    destruct (List.find _ (users_table d)) as [r'|] eqn:Hf.
    + apply List.find_some in Hf as [Hin' Hb].
      apply andb_prop in Hb as [Hn' _]. apply String.eqb_eq in Hn'.
      f_equal. apply (nodup_map_inj username (users_table d)); try assumption.
      congruence.
    + exfalso. apply (List.find_none _ _ Hf) in Hin.
      rewrite Hn, String.eqb_refl, Ha in Hin. discriminate.
Qed.

Lemma login_post_run (w : world) (req : request) :
  login_post req w =
  match select_active_user_by_username
          (PyStr.strip (or_empty (form_username req))) (db w) with
  | Some r =>
      if check_password_hash (pass_hash r) (or_empty (form_password req))
      then answers (flashed "ok" MSG_LOGGED_IN (bound_to (user_id r) w))
                   (Redirect "/dashboard")
      else answers (flashed "error" MSG_BAD_LOGIN w) (Redirect "/login")
  | None => answers (flashed "error" MSG_BAD_LOGIN w) (Redirect "/login")
  end.
Proof.
  unfold login_post. run.
  destruct (select_active_user_by_username _ _) as [r|]; [|reflexivity].
  destruct (check_password_hash _ _); reflexivity.
Qed.

Lemma login_post_accepts (w : world) (req : request) (r : user_row) :
  unique_usernames (db w) ->
  credentials_ok (db w) (PyStr.strip (or_empty (form_username req)))
                 (or_empty (form_password req)) r ->
  login_post req w
  = answers (flashed "ok" MSG_LOGGED_IN (bound_to (user_id r) w))
            (Redirect "/dashboard").
Proof.
  intros Hu (Hin & Hn & Ha & Hc). rewrite login_post_run.
  rewrite (proj2 (select_by_username_iff _ _ r Hu)) by auto.
  rewrite Hc. reflexivity.
Qed.

(** C1, as amended.  With usernames unique in [users], [login_post]
    succeeds, and binds the session to the id of the account, exactly
    when an active account has the submitted username with the white
    space at its ends removed and its stored hash matches the submitted
    password.  In every other case (no such name, an inactive account, a
    wrong password) the outcome is the same: one flashed message, a
    redirect to the login page, and the session keeps the id it had. *)
Theorem login_post_spec (w : world) (req : request) :
  unique_usernames (db w) ->
  let n := PyStr.strip (or_empty (form_username req)) in
  let pw := or_empty (form_password req) in
  (forall r, credentials_ok (db w) n pw r ->
     login_post req w
     = answers (flashed "ok" MSG_LOGGED_IN (bound_to (user_id r) w))
               (Redirect "/dashboard"))
  /\ ((~ exists r, credentials_ok (db w) n pw r) ->
      login_post req w
      = answers (flashed "error" MSG_BAD_LOGIN w) (Redirect "/login")
      /\ uid (sess (final (login_post req w))) = uid (sess w))
  /\ (result (login_post req w) = inr (Redirect "/dashboard")
      <-> exists r, credentials_ok (db w) n pw r).
Proof.
  intros Hu n pw.
  assert (Hok : forall r, credentials_ok (db w) n pw r ->
            login_post req w
            = answers (flashed "ok" MSG_LOGGED_IN (bound_to (user_id r) w))
                      (Redirect "/dashboard"))
    by (intros r Hr; exact (login_post_accepts w req r Hu Hr)).
  assert (Hko : (~ exists r, credentials_ok (db w) n pw r) ->
            login_post req w
            = answers (flashed "error" MSG_BAD_LOGIN w) (Redirect "/login")).
  { intros Hno. rewrite login_post_run. fold n pw.
    destruct (select_active_user_by_username n (db w)) as [r|] eqn:Hs;
      [|reflexivity].
    destruct (check_password_hash (pass_hash r) pw) eqn:Hc; [|reflexivity].
    exfalso. apply Hno. exists r.
    apply (select_by_username_iff _ _ _ Hu) in Hs as (? & ? & ?).
    unfold credentials_ok. auto. }
  split; [exact Hok|]. split.
  { intros Hno. split; [apply Hko, Hno|]. rewrite (Hko Hno). reflexivity. }
  split.
  - intros Hres. rewrite login_post_run in Hres. fold n pw in Hres.
    destruct (select_active_user_by_username n (db w)) as [r|] eqn:Hs;
      [|discriminate].
    destruct (check_password_hash (pass_hash r) pw) eqn:Hc; [|discriminate].
    exists r. apply (select_by_username_iff _ _ _ Hu) in Hs as (? & ? & ?).
    unfold credentials_ok. auto.
  - intros [r Hr]. rewrite (Hok r Hr). reflexivity.
Qed.

(** C10. [login_post] strips the username and takes the password as it
    is: a username with white space around it is answered as the bare
    username is, and, for an account whose stored hash matches the
    password [p] and no other, the password [p] logs in while [p] with
    white space around it is refused. *)
Theorem login_post_strips_username_only (w : world)
  (req_exact req_name_padded req_pw_padded : request)
  (u p pad1 pad2 : string) :
  PyStr.all_space pad1 = true -> PyStr.all_space pad2 = true ->
  (pad1 ++ pad2)%string <> "" ->
  form_username req_exact = Some u ->
  form_password req_exact = Some p ->
  form_username req_name_padded = Some (pad1 ++ u ++ pad2) ->
  form_password req_name_padded = Some p ->
  form_username req_pw_padded = Some u ->
  form_password req_pw_padded = Some (pad1 ++ p ++ pad2) ->
  login_post req_name_padded w = login_post req_exact w
  /\ (forall r,
        select_active_user_by_username (PyStr.strip u) (db w) = Some r ->
        (forall q, check_password_hash (pass_hash r) q = true <-> q = p) ->
        login_post req_exact w
        = answers (flashed "ok" MSG_LOGGED_IN (bound_to (user_id r) w))
                  (Redirect "/dashboard")
        /\ login_post req_pw_padded w
           = answers (flashed "error" MSG_BAD_LOGIN w) (Redirect "/login")).
Proof.
  intros Hp1 Hp2 Hne Hu Hp Hu' Hp' Hu'' Hp''. split.
  - rewrite !login_post_run, Hu, Hp, Hu', Hp'. simpl.
    rewrite (strip_padded _ _ _ Hp1 Hp2). reflexivity.
  - intros r Hsel Hhash. rewrite !login_post_run, Hu, Hp, Hu'', Hp''. simpl.
    rewrite Hsel. split.
    + rewrite (proj2 (Hhash p) eq_refl). reflexivity.
    + destruct (check_password_hash (pass_hash r) (pad1 ++ p ++ pad2)) eqn:Hc;
        [|reflexivity].
      apply Hhash in Hc. exfalso. exact (padded_differs _ _ _ Hne Hc).
Qed.

(** X4. After a login that went through, [current_user] gives the account
    that logged in. *)
Lemma login_then_current_user (w : world) (req : request) (r : user_row) :
  unique_usernames (db w) -> primary_keys (db w) ->
  credentials_ok (db w) (PyStr.strip (or_empty (form_username req)))
                 (or_empty (form_password req)) r ->
  resolved_user (final (login_post req w)) = Some r.
Proof.
  intros Hu [Hk Hpos] Hr.
  rewrite (login_post_accepts w req r Hu Hr).
  destruct Hr as (Hin & _ & Ha & _).
  rewrite resolved_user_eq. simpl.
  destruct (Z.eqb_spec (user_id r) 0) as [H0|_];
    [specialize (Hpos r Hin); lia|].
  unfold select_active_user_by_id.
  destruct (List.find _ (users_table (db w))) as [r'|] eqn:Hf.
  - apply List.find_some in Hf as [Hin' Hb].
    apply andb_prop in Hb as [Hi _]. apply Z.eqb_eq in Hi.
    f_equal. exact (nodup_map_inj user_id _ _ _ Hk Hin' Hin Hi).
  - apply (List.find_none _ _ Hf) in Hin.
    rewrite Z.eqb_refl, Ha in Hin. discriminate.
Qed.

End Login.

Lemma demo_hash_exact (p q : string) :
  demo_check_password_hash ("plain$" ++ p) q = true <-> q = p.
Proof.
  unfold demo_check_password_hash. rewrite String.eqb_eq.
  cbv beta iota delta [String.append]. split; [|congruence].
  intros [= ->]. reflexivity.
Qed.

Lemma demo_db_unique : unique_usernames demo_db.
Proof.
  unfold unique_usernames. simpl.
  rewrite !NoDup_cons, !elem_of_cons, !elem_of_nil.
  intuition (try discriminate). apply NoDup_nil_2.
Qed.

Lemma login_post_spec_witness :
  unique_usernames demo_db
  /\ @login_post demo (login_form "admin" "admin123" (noon 0)) (demo_world None)
     = answers (flashed "ok" MSG_LOGGED_IN (bound_to 1 (demo_world None)))
               (Redirect "/dashboard").
Proof.
  split; [exact demo_db_unique|].
  destruct (@login_post_spec demo (demo_world None)
              (login_form "admin" "admin123" (noon 0)) demo_db_unique)
    as (Hok & _ & _).
  apply (Hok admin_row). unfold credentials_ok. simpl.
  split; [left; reflexivity|]. repeat split; reflexivity.
Defined.

(** C1, as stated, fails for a username with white space around it:
    [" admin"] logs in, bound to the account [admin], although no
    account has exactly that username. *)
Lemma login_exact_username_counterexample :
  let w := demo_world None in
  let o := @login_post demo (login_form " admin" "admin123" (noon 0)) w in
  result o = inr (Redirect "/dashboard")
  /\ uid (sess (final o)) = Some 1
  /\ ~ exists r, @credentials_ok demo (db w) " admin" "admin123" r.
Proof.
  simpl. split; [reflexivity|]. split; [reflexivity|].
  intros [r (Hin & Hn & _)]. simpl in Hin.
  destruct Hin as [<-|[<-|[]]]; discriminate Hn.
Qed.

Lemma login_post_strips_username_only_witness :
  @login_post demo (login_form " admin " "admin123" (noon 0)) (demo_world None)
  = @login_post demo (login_form "admin" "admin123" (noon 0)) (demo_world None)
  /\ @login_post demo (login_form "admin" " admin123 " (noon 0)) (demo_world None)
     = answers (flashed "error" MSG_BAD_LOGIN (demo_world None))
               (Redirect "/login").
Proof.
  destruct (@login_post_strips_username_only demo (demo_world None)
              (login_form "admin" "admin123" (noon 0))
              (login_form " admin " "admin123" (noon 0))
              (login_form "admin" " admin123 " (noon 0))
              "admin" "admin123" " " " "
              eq_refl eq_refl ltac:(discriminate)
              eq_refl eq_refl eq_refl eq_refl eq_refl eq_refl)
    as [Hname Hpw].
  split; [exact Hname|].
  apply (Hpw admin_row); [reflexivity|].
  intros q. apply (demo_hash_exact "admin123" q).
Defined.

(** ** Uploads *)

Section Upload.

Context {P : Platform}.

Lemma resolved_user_in_table (w : world) (r : user_row) :
  resolved_user w = Some r ->
  In r (users_table (db w)) /\ user_id r <> 0 /\ is_active r = 1
  /\ uid (sess w) = Some (user_id r).
Proof.
  rewrite resolved_user_eq. destruct (uid (sess w)) as [i|]; [|discriminate].
  destruct (Z.eqb_spec i 0); [discriminate|].
  unfold select_active_user_by_id. intros Hf.
  apply List.find_some in Hf as [Hin Hb].
  apply andb_prop in Hb as [Hi Ha].
  apply Z.eqb_eq in Hi. apply Z.eqb_eq in Ha. subst i. auto.
Qed.

Lemma resolved_user_referenced (w : world) (r : user_row) :
  resolved_user w = Some r -> references_user (user_id r) (db w) = true.
Proof.
  intros Hr. apply resolved_user_in_table in Hr as (Hin & _).
  unfold references_user. apply List.existsb_exists. exists r.
  split; [exact Hin|apply Z.eqb_refl].
Qed.

Lemma upload_record_run (original stored note at_time : string)
  (u : option user_row) (w : world) :
  upload_record original stored u note at_time w =
  match u with
  | Some r =>
      if references_user (user_id r) (db w) then
        let row :=
          new_upload_row (db w) original stored (user_id r) note at_time in
        Outcome [(DbInsertUpload row, recorded row w)]
                (flashed "ok" MSG_UPLOADED (recorded row w))
                (inr (Redirect "/dashboard"))
      else Outcome [] w (inl IntegrityError)
  | None => Outcome [] w (inl TypeError)
  end.
Proof.
  unfold upload_record, insert_upload. run.
  destruct u as [r|]; simpl; [|reflexivity].
  destruct (references_user (user_id r) (db w)); reflexivity.
Qed.

(** The whole of [upload], case by case. *)
Lemma upload_run (req : request) (w : world) :
  upload req w =
  match files_file req with
  | Some f =>
      if String.eqb (filename f) "" then
        answers (flashed "error" MSG_NO_FILE w) (Redirect "/dashboard")
      else if bool_decide (PyStr.lower (PyPath.suffix (filename f))
                           ∈ ALLOWED_EXT) then
        let stored := stored_name_for (now req) (filename f) in
        let path := upload_path stored in
        let w1 := saved path (content f) w in
        match resolved_user w with
        | Some r =>
            let row :=
              new_upload_row (db w) (filename f) stored (user_id r)
                (PyStr.strip (or_empty (form_notes req))) (db_now req) in
            Outcome [(FsWrite path (content f), w1);
                     (DbInsertUpload row, recorded row w1)]
                    (flashed "ok" MSG_UPLOADED (recorded row w1))
                    (inr (Redirect "/dashboard"))
        | None => Outcome [(FsWrite path (content f), w1)] w1 (inl TypeError)
        end
      else answers (flashed "error" MSG_BAD_FORMAT w) (Redirect "/dashboard")
  | None => answers (flashed "error" MSG_NO_FILE w) (Redirect "/dashboard")
  end.
Proof.
  unfold upload, bind at 1. rewrite current_user_run. simpl.
  destruct (files_file req) as [f|]; [|reflexivity].
  destruct (String.eqb (filename f) ""); [reflexivity|].
  destruct (bool_decide _); simpl; [|reflexivity].
  rewrite upload_record_run.
  destruct (resolved_user w) as [r|] eqn:Hr; [|reflexivity].
  change (db (saved _ _ w)) with (db w).
  rewrite (resolved_user_referenced w r Hr). reflexivity.
Qed.

(** C6. An upload whose file has a name, with an extension that in
    lower case is neither [.xlsx] nor [.xls], is refused with the
    message of the unsupported format and a redirect to the dashboard;
    nothing is written to the filesystem and no row is inserted, in the
    view itself and behind [login_required]. *)
Theorem upload_rejects_other_extensions (w : world) (req : request)
  (f : file_storage) :
  files_file req = Some f ->
  filename f <> "" ->
  PyStr.lower (PyPath.suffix (filename f)) ∉ ALLOWED_EXT ->
  upload req w
  = answers (flashed "error" MSG_BAD_FORMAT w) (Redirect "/dashboard")
  /\ events_of (POST_upload req w) = []
  /\ fs (final (POST_upload req w)) = fs w
  /\ db (final (POST_upload req w)) = db w.
Proof.
  intros Hf Hn He.
  assert (Hup : upload req w
                = answers (flashed "error" MSG_BAD_FORMAT w)
                          (Redirect "/dashboard")).
  { rewrite upload_run, Hf.
    destruct (String.eqb_spec (filename f) ""); [contradiction|].
    rewrite bool_decide_eq_false_2 by exact He. reflexivity. }
  split; [exact Hup|]. unfold POST_upload.
  destruct (truthy (uid (sess w))) eqn:Hu.
  - rewrite (login_required_bound _ _ Hu), Hup. repeat split.
  - rewrite (login_required_anonymous _ _ Hu). repeat split.
Qed.

(** C9, as amended.  An insert into [uploads] whose [uploaded_by] has no
    row in [users] raises [IntegrityError] and stores nothing; [upload]
    has no handler for it, so the exception leaves the view: no message
    is flashed and there is no response. *)
Theorem insert_upload_foreign_key (w : world)
  (original stored note at_time : string) (i : Z) :
  references_user i (db w) = false ->
  insert_upload original stored i note at_time w
  = Outcome [] w (inl IntegrityError)
  /\ (forall r, user_id r = i ->
        upload_record original stored (Some r) note at_time w
        = Outcome [] w (inl IntegrityError)).
Proof.
  intros Hr. split.
  - unfold insert_upload. rewrite Hr. reflexivity.
  - intros r <-. rewrite upload_record_run, Hr. reflexivity.
Qed.

End Upload.

Lemma upload_rejects_other_extensions_witness :
  @upload demo (upload_form "informe.PDF" [] (noon 0)) (demo_world (Some 1))
  = answers (flashed "error" MSG_BAD_FORMAT (demo_world (Some 1)))
            (Redirect "/dashboard").
Proof.
  apply (@upload_rejects_other_extensions demo (demo_world (Some 1))
           (upload_form "informe.PDF" [] (noon 0))
           {| filename := "informe.PDF"; content := [] |});
    [reflexivity|discriminate|vm_compute; discriminate].
Defined.

Lemma insert_upload_foreign_key_witness :
  references_user 7 demo_db = false
  /\ insert_upload "a.xlsx" "20260107_120000__a.xlsx" 7 "" "2026-01-07 12:00:00"
       (demo_world (Some 7))
     = Outcome [] (demo_world (Some 7)) (inl IntegrityError).
Proof.
  split; [reflexivity|].
  apply (insert_upload_foreign_key (demo_world (Some 7))). reflexivity.
Defined.

(** C9, as stated, fails in its second half: when the insert at the end
    of [upload] finds no row of [users] for the uploader, the view ends
    with the exception [IntegrityError]; it gives no response and
    flashes no message. *)
Lemma integrity_error_unhandled_counterexample :
  let ghost := {| user_id := 7; username := "bea"; pass_hash := "plain$x";
                  role := RRHH; is_active := 1;
                  created_at := "2026-01-06 10:00:00" |} in
  let o := upload_record "a.xlsx" "20260107_120000__a.xlsx" (Some ghost)
             "" "2026-01-07 12:00:00" (demo_world (Some 7)) in
  references_user 7 demo_db = false
  /\ result o = inl IntegrityError
  /\ flashes (sess (final o)) = []
  /\ uploads_table (db (final o)) = [].
Proof. vm_compute. repeat split. Qed.

(** ** File first, row second *)

Section UploadOrder.

Context {P : Platform}.

Lemma no_dangling_saved (path : string) (data : list Byte.byte)
  (w : world) :
  no_dangling w -> no_dangling (saved path data w).
Proof.
  intros Hw row Hin. specialize (Hw row Hin). simpl.
  destruct (decide (path = upload_path (stored_name row))) as [->|Hne].
  - rewrite lookup_insert_eq. eauto.
  - rewrite lookup_insert_ne by exact Hne. exact Hw.
Qed.

Lemma no_dangling_recorded (row : upload_row) (w : world) :
  no_dangling w ->
  is_Some (fs w !! upload_path (stored_name row)) ->
  no_dangling (recorded row w).
Proof.
  intros Hw Hrow r Hin. simpl in Hin. apply List.in_app_or in Hin.
  destruct Hin as [Hin|[<-|[]]]; [apply Hw, Hin|exact Hrow].
Qed.

Lemma no_dangling_flashed (c m : string) (w : world) :
  no_dangling w -> no_dangling (flashed c m w).
Proof. intros Hw row Hin. exact (Hw row Hin). Qed.

(** A row is inserted only in the run that first wrote its file. *)
Lemma upload_insert_inv (req : request) (w : world) (row : upload_row) :
  In (DbInsertUpload row) (events_of (upload req w)) ->
  exists f r,
    files_file req = Some f
    /\ resolved_user w = Some r
    /\ stored_name row = stored_name_for (now req) (filename f)
    /\ upload req w
       = Outcome [(FsWrite (upload_path (stored_name row)) (content f),
                   saved (upload_path (stored_name row)) (content f) w);
                  (DbInsertUpload row,
                   recorded row
                     (saved (upload_path (stored_name row)) (content f) w))]
           (flashed "ok" MSG_UPLOADED
              (recorded row
                 (saved (upload_path (stored_name row)) (content f) w)))
           (inr (Redirect "/dashboard")).
Proof.
  rewrite upload_run.
  destruct (files_file req) as [f|]; [|intros []].
  destruct (String.eqb (filename f) ""); [intros []|].
  destruct (bool_decide _); [|intros []].
  cbv zeta. destruct (resolved_user w) as [r|].
  - unfold events_of. simpl. intros [[=]|[[= <-]|[]]].
    exists f, r. repeat split; reflexivity.
  - unfold events_of. simpl. intros [[=]|[]].
Qed.

(** An upload of a supported file by a live user goes through. *)
Lemma upload_accepts (req : request) (w : world) (f : file_storage)
  (r : user_row) :
  files_file req = Some f ->
  filename f <> "" ->
  PyStr.lower (PyPath.suffix (filename f)) ∈ ALLOWED_EXT ->
  resolved_user w = Some r ->
  exists row,
    In (DbInsertUpload row) (events_of (upload req w))
    /\ stored_name row = stored_name_for (now req) (filename f)
    /\ uploaded_by row = user_id r.
Proof.
  intros Hf Hn He Hr. rewrite upload_run, Hf.
  destruct (String.eqb_spec (filename f) ""); [contradiction|].
  rewrite bool_decide_eq_true_2 by exact He. cbv zeta. rewrite Hr.
  eexists. split; [right; left; reflexivity|]. split; reflexivity.
Qed.

(** C7. In a world where every row of [uploads] has its file, every
    state [upload] passes through, and the state it ends in, has the
    same property.  A run that inserts a row has exactly two events, the
    write of the file under the stored name of the row and then the
    insert, and an upload of a supported file by a live user is such a
    run. *)
Theorem upload_writes_file_before_row (w : world) (req : request) :
  no_dangling w ->
  Forall no_dangling (states_of (upload req w))
  /\ no_dangling (final (upload req w))
  /\ (forall row,
        In (DbInsertUpload row) (events_of (upload req w)) ->
        exists f,
          files_file req = Some f
          /\ events_of (upload req w)
             = [FsWrite (upload_path (stored_name row)) (content f);
                DbInsertUpload row]
          /\ result (upload req w) = inr (Redirect "/dashboard"))
  /\ (forall f r,
        files_file req = Some f -> filename f <> "" ->
        PyStr.lower (PyPath.suffix (filename f)) ∈ ALLOWED_EXT ->
        resolved_user w = Some r ->
        exists row, In (DbInsertUpload row) (events_of (upload req w))).
Proof.
  intros Hw. split; [|split; [|split]].
  - rewrite upload_run.
    destruct (files_file req) as [f|]; [|constructor].
    destruct (String.eqb (filename f) ""); [constructor|].
    destruct (bool_decide _); [|constructor].
    cbv zeta. set (path := upload_path _).
    assert (H1 : no_dangling (saved path (content f) w))
      by apply no_dangling_saved, Hw.
    destruct (resolved_user w) as [r|]; unfold states_of; simpl.
    + repeat constructor; [exact H1|].
      apply no_dangling_recorded; [exact H1|]. simpl.
      rewrite lookup_insert_eq. eauto.
    + repeat constructor. exact H1.
  - rewrite upload_run.
    destruct (files_file req) as [f|];
      [|apply no_dangling_flashed, Hw].
    destruct (String.eqb (filename f) ""); [apply no_dangling_flashed, Hw|].
    destruct (bool_decide _); [|apply no_dangling_flashed, Hw].
    cbv zeta. set (path := upload_path _).
    assert (H1 : no_dangling (saved path (content f) w))
      by apply no_dangling_saved, Hw.
    destruct (resolved_user w) as [r|]; simpl; [|exact H1].
    apply no_dangling_flashed, no_dangling_recorded; [exact H1|]. simpl.
    rewrite lookup_insert_eq. eauto.
  - intros row Hin.
    destruct (upload_insert_inv req w row Hin) as (f & r & Hf & _ & _ & Hrun).
    exists f. rewrite Hrun. split; [exact Hf|split; reflexivity].
  - intros f r Hf Hn He Hr.
    destruct (upload_accepts req w f r Hf Hn He Hr) as (row & Hin & _).
    exists row. exact Hin.
Qed.

End UploadOrder.

Lemma demo_world_no_dangling (u : option Z) : @no_dangling demo (demo_world u).
Proof. intros row []. Qed.

Lemma upload_writes_file_before_row_witness :
  @no_dangling demo (demo_world (Some 1))
  /\ Forall (@no_dangling demo)
       (states_of (@upload demo (upload_form "a.xlsx" [] (noon 0))
                     (demo_world (Some 1)))).
Proof.
  split; [exact (demo_world_no_dangling (Some 1))|].
  apply (@upload_writes_file_before_row demo (demo_world (Some 1))
           (upload_form "a.xlsx" [] (noon 0))
           (demo_world_no_dangling (Some 1))).
Defined.

(** ** Stored names *)

Lemma digit_code (n : Z) :
  nat_of_ascii (digit n) = Z.to_nat (48 + n mod 10).
Proof.
  unfold digit. apply nat_ascii_embedding.
  assert (0 <= n mod 10 < 10) by (apply Z.mod_pos_bound; lia). lia.
Qed.

Lemma digit_mod (a b : Z) : digit a = digit b -> a mod 10 = b mod 10.
Proof.
  intros H. apply (f_equal nat_of_ascii) in H. rewrite !digit_code in H.
  assert (0 <= a mod 10 < 10) by (apply Z.mod_pos_bound; lia).
  assert (0 <= b mod 10 < 10) by (apply Z.mod_pos_bound; lia). lia.
Qed.

Lemma digit_not_slash (n : Z) : Ascii.eqb "/" (digit n) = false.
Proof.
  apply Ascii.eqb_neq. intros H. apply (f_equal nat_of_ascii) in H.
  rewrite digit_code in H. change (nat_of_ascii "/") with 47%nat in H.
  assert (0 <= n mod 10 < 10) by (apply Z.mod_pos_bound; lia). lia.
Qed.

Lemma dec2_inj (a b : Z) :
  0 <= a < 100 -> 0 <= b < 100 ->
  digit (a / 10) = digit (b / 10) -> digit a = digit b -> a = b.
Proof.
  intros Ha Hb H1 H0. apply digit_mod in H1. apply digit_mod in H0.
  Z.to_euclidean_division_equations. lia.
Qed.

Lemma dec4_inj (a b : Z) :
  0 <= a < 10000 -> 0 <= b < 10000 ->
  digit (a / 1000) = digit (b / 1000) -> digit (a / 100) = digit (b / 100) ->
  digit (a / 10) = digit (b / 10) -> digit a = digit b -> a = b.
Proof.
  intros Ha Hb H3 H2 H1 H0.
  apply digit_mod in H3. apply digit_mod in H2.
  apply digit_mod in H1. apply digit_mod in H0.
  Z.to_euclidean_division_equations. lia.
Qed.

Lemma append_inj_r (a b c : string) : (a ++ b)%string = (a ++ c)%string -> b = c.
Proof.
  induction a as [|x a IH]; cbv beta iota delta [String.append];
    fold String.append; [trivial|].
  intros [= H]. apply IH, H.
Qed.

(** Two names that begin with equal stamps: the same second. *)
Lemma stamp_inj (t1 t2 : datetime) (rest1 rest2 : string) :
  valid_datetime t1 -> valid_datetime t2 ->
  (strftime t1 ++ rest1)%string = (strftime t2 ++ rest2)%string ->
  same_second t1 t2.
Proof.
  intros (Hy1 & Hm1 & Hd1 & Hh1 & Hn1 & Hs1 & _)
         (Hy2 & Hm2 & Hd2 & Hh2 & Hn2 & Hs2 & _).
  unfold strftime, dec4, dec2.
  cbv beta iota delta [String.append]. fold String.append.
  intros [= Y3 Y2 Y1 Y0 M1 M0 D1 D0 H1 H0 N1 N0 S1 S0 _].
  unfold same_second.
  repeat split;
    first [ apply dec4_inj; (assumption || lia)
          | apply dec2_inj; (assumption || lia) ].
Qed.

Section StoredNames.

Context {P : Platform}.

Lemma stored_name_relative (t : datetime) (n : string) :
  PyStr.startswith (stored_name_for t n) "/" = false.
Proof.
  unfold stored_name_for, strftime, dec4, PyStr.startswith.
  cbv beta iota delta [String.append PyStr.strip_prefix].
  rewrite digit_not_slash. reflexivity.
Qed.

Lemma upload_path_inj (t1 t2 : datetime) (n1 n2 : string) :
  upload_path (stored_name_for t1 n1) = upload_path (stored_name_for t2 n2) ->
  stored_name_for t1 n1 = stored_name_for t2 n2.
Proof.
  unfold upload_path, PyPath.join. rewrite !stored_name_relative.
  destruct (_ || _); intros H; apply append_inj_r in H;
    [exact H|apply append_inj_r in H; exact H].
Qed.

Lemma stored_name_inj (t1 t2 : datetime) (n1 n2 : string) :
  valid_datetime t1 -> valid_datetime t2 ->
  stored_name_for t1 n1 = stored_name_for t2 n2 -> same_second t1 t2.
Proof.
  intros Hv1 Hv2 H. unfold stored_name_for in H.
  exact (stamp_inj _ _ _ _ Hv1 Hv2 H).
Qed.

(** C2, as amended.  Two uploads that go through one after the other at
    instants in different seconds, whatever the names of their files and
    in particular for the same name, get different stored names, and
    after the second upload both files are in the uploads directory,
    each with the bytes that were sent. *)
Theorem uploads_in_different_seconds_keep_both (w : world)
  (req1 req2 : request) (f1 f2 : file_storage) (row1 row2 : upload_row) :
  valid_datetime (now req1) -> valid_datetime (now req2) ->
  ~ same_second (now req1) (now req2) ->
  files_file req1 = Some f1 -> files_file req2 = Some f2 ->
  In (DbInsertUpload row1) (events_of (upload req1 w)) ->
  In (DbInsertUpload row2)
     (events_of (upload req2 (final (upload req1 w)))) ->
  let w2 := final (upload req2 (final (upload req1 w))) in
  stored_name row1 <> stored_name row2
  /\ fs w2 !! upload_path (stored_name row1) = Some (content f1)
  /\ fs w2 !! upload_path (stored_name row2) = Some (content f2).
Proof.
  intros Hv1 Hv2 Hdiff Hf1 Hf2 Hin1 Hin2.
  destruct (upload_insert_inv req1 w row1 Hin1)
    as (g1 & r1 & Hg1 & _ & Hs1 & Hrun1).
  rewrite Hrun1 in Hin2 |- *. cbn [final] in Hin2 |- *.
  destruct (upload_insert_inv req2 _ row2 Hin2)
    as (g2 & r2 & Hg2 & _ & Hs2 & Hrun2).
  rewrite Hrun2. cbn [final].
  assert (g1 = f1) as -> by congruence.
  assert (g2 = f2) as -> by congruence.
  assert (Hne : stored_name row1 <> stored_name row2).
  { rewrite Hs1, Hs2. intros Heq. apply Hdiff.
    exact (stored_name_inj _ _ _ _ Hv1 Hv2 Heq). }
  assert (Hpath : upload_path (stored_name row2)
                  <> upload_path (stored_name row1)).
  { rewrite Hs1, Hs2. intros Heq. apply Hne. rewrite Hs1, Hs2.
    symmetry. exact (upload_path_inj _ _ _ _ Heq). }
  split; [exact Hne|]. simpl. split.
  - rewrite lookup_insert_ne by exact Hpath. apply lookup_insert_eq.
  - apply lookup_insert_eq.
Qed.

End StoredNames.

Lemma uploads_in_different_seconds_keep_both_witness :
  let w2 := final (@upload demo (upload_form "a.xlsx" [Byte.x32] one_pm)
              (final (@upload demo (upload_form "a.xlsx" [Byte.x31] (noon 0))
                        (demo_world (Some 1))))) in
  fs w2 !! "/srv/nexo/data/uploads/20260107_120000__a.xlsx" = Some [Byte.x31]
  /\ fs w2 !! "/srv/nexo/data/uploads/20260107_130000__a.xlsx" = Some [Byte.x32].
Proof.
  pose (row1 := new_upload_row demo_db "a.xlsx" "20260107_120000__a.xlsx" 1
                  "enero" "2026-01-07 12:00:00").
  pose (row2 := new_upload_row
                  {| users_table := users_table demo_db;
                     uploads_table := [row1] |}
                  "a.xlsx" "20260107_130000__a.xlsx" 1
                  "enero" "2026-01-07 12:00:00").
  refine (proj2 (@uploads_in_different_seconds_keep_both demo
                   (demo_world (Some 1))
                   (upload_form "a.xlsx" [Byte.x31] (noon 0))
                   (upload_form "a.xlsx" [Byte.x32] one_pm)
                   {| filename := "a.xlsx"; content := [Byte.x31] |}
                   {| filename := "a.xlsx"; content := [Byte.x32] |}
                   row1 row2 _ _ _ eq_refl eq_refl _ _)).
  - unfold valid_datetime. simpl. lia.
  - unfold valid_datetime. simpl. lia.
  - unfold same_second. simpl. lia.
  - right. left. reflexivity.
  - right. left. reflexivity.
Defined.

(** C2, as stated, fails for two uploads of the same file name within
    one second: both go through, both rows carry the same stored name,
    and the uploads directory holds one file, with the bytes of the
    second upload. *)
Lemma same_second_upload_counterexample :
  let req1 := upload_form "a.xlsx" [Byte.x31] (noon 0) in
  let req2 := upload_form "a.xlsx" [Byte.x32] (noon 500000) in
  let o1 := @POST_upload demo req1 (demo_world (Some 1)) in
  let o2 := @POST_upload demo req2 (final o1) in
  same_second (now req1) (now req2)
  /\ result o1 = inr (Redirect "/dashboard")
  /\ result o2 = inr (Redirect "/dashboard")
  /\ List.map stored_name (uploads_table (db (final o2)))
     = ["20260107_120000__a.xlsx"; "20260107_120000__a.xlsx"]
  /\ map_to_list (fs (final o2))
     = [("/srv/nexo/data/uploads/20260107_120000__a.xlsx", [Byte.x32])].
Proof. vm_compute. repeat split. Qed.

(** ** Downloads *)

Section PathLemmas.

Import PyStr PyPath.

Lemma has_char_app (c : ascii) (a b : string) :
  has_char c (a ++ b) = has_char c a || has_char c b.
Proof.
  induction a as [|x a IH]; [reflexivity|].
  change (String x a ++ b)%string with (String x (a ++ b)). simpl.
  rewrite IH. apply orb_assoc.
Qed.

Lemma contains_dotdot_has_slash (n : string) :
  contains n "../" -> has_char slash n = true.
Proof.
  intros (a & b & ->). rewrite !has_char_app.
  change (has_char slash "../") with true. apply orb_true_r.
Qed.

Lemma strip_prefix_app (p s : string) : strip_prefix p (p ++ s) = Some s.
Proof.
  induction p as [|x p IH]; [reflexivity|].
  change (String x p ++ s)%string with (String x (p ++ s)). simpl.
  rewrite Ascii.eqb_refl. exact IH.
Qed.

Lemma strip_prefix_some (p s r : string) :
  strip_prefix p s = Some r -> s = (p ++ r)%string.
Proof.
  revert s. induction p as [|x p IH]; intros s; simpl.
  - intros [= ->]. reflexivity.
  - destruct s as [|y s]; [discriminate|].
    destruct (Ascii.eqb_spec x y) as [<-|]; [|discriminate].
    intros H. apply IH in H. rewrite H. reflexivity.
Qed.

Lemma split_no_sep (s : string) :
  has_char slash s = false -> split slash s = [s].
Proof.
  induction s as [|c s IH]; [reflexivity|]. cbn [has_char split].
  intros [Hc Hs]%orb_false_elim. rewrite Ascii.eqb_sym, Hc, (IH Hs).
  reflexivity.
Qed.

Lemma no_slash_not_startswith (s p r : string) :
  has_char slash s = false -> has_char slash p = true ->
  strip_prefix p s = Some r -> False.
Proof.
  intros Hs Hp Hr. apply strip_prefix_some in Hr. subst s.
  rewrite has_char_app, Hp in Hs. discriminate.
Qed.

Lemma startswith_no_slash (s p : string) :
  has_char slash s = false -> has_char slash p = true ->
  startswith s p = false.
Proof.
  intros Hs Hp. unfold startswith.
  destruct (strip_prefix p s) eqn:Hr; [|reflexivity].
  exfalso. exact (no_slash_not_startswith _ _ _ Hs Hp Hr).
Qed.

(** A single path segment is its own normal form. *)
Lemma normpath_segment (s : string) :
  s <> "" -> has_char slash s = false -> normpath s = s.
Proof.
  intros Hne Hs. unfold normpath.
  destruct (String.eqb_spec s ""); [contradiction|].
  rewrite (startswith_no_slash s "/" Hs eq_refl).
  rewrite (split_no_sep s Hs). cbn [String.eqb negb normpath_comps].
  destruct (String.eqb_spec s ""); [contradiction|]. simpl.
  destruct (String.eqb_spec s ".") as [->|Hdot]; [reflexivity|].
  rewrite orb_true_r. simpl. change ("" ++ s)%string with s.
  destruct (String.eqb_spec s ""); [contradiction|reflexivity].
Qed.

(** [safe_join] on a single path segment refuses [..] and otherwise
    joins the segment to the directory. *)
Lemma safe_join_segment (d s : string) :
  s <> "" -> has_char slash s = false ->
  safe_join d s =
  if String.eqb s ".." then None
  else Some (join (if String.eqb d "" then "." else d) s).
Proof.
  intros Hne Hs. unfold safe_join.
  destruct (String.eqb_spec s ""); [contradiction|].
  rewrite (normpath_segment s Hne Hs).
  rewrite (startswith_no_slash s "/" Hs eq_refl).
  rewrite (startswith_no_slash s "../" Hs eq_refl).
  rewrite orb_false_r. reflexivity.
Qed.

End PathLemmas.

Section Download.

Context {P : Platform}.

Lemma send_from_directory_run (d n : string) (w : world) :
  send_from_directory d n w =
  match PyPath.safe_join d n with
  | Some p =>
      match fs w !! p with
      | Some data =>
          Outcome [(FsIsFile p, w); (FsRead p, w)] w (inr (Attachment p data))
      | None => Outcome [(FsIsFile p, w)] w (inr NotFound)
      end
  | None => answers w NotFound
  end.
Proof.
  unfold send_from_directory, fs_isfile, fs_read. run.
  destruct (PyPath.safe_join d n) as [p|]; [|reflexivity]. simpl.
  destruct (fs w !! p) as [data|] eqn:Hp; simpl; [|reflexivity].
  rewrite Hp. reflexivity.
Qed.

Lemma match_uploads_rule_some (path name : string) :
  match_uploads_rule path = Some name ->
  path = ("/uploads/" ++ name)%string /\ name <> ""
  /\ PyStr.has_char PyPath.slash name = false.
Proof.
  unfold match_uploads_rule.
  destruct (PyStr.strip_prefix "/uploads/" path) as [r|] eqn:Hr;
    [|discriminate].
  destruct (String.eqb_spec r ""); simpl; [discriminate|].
  destruct (PyStr.has_char PyPath.slash r) eqn:Hs; simpl; [discriminate|].
  intros [= <-]. apply strip_prefix_some in Hr. auto.
Qed.

(** C8. A request for [/uploads/] followed by a name that has [../] in
    it matches no rule and is answered "not found" without any event;
    the name [..] reaches [download_upload] and is refused there, again
    without an event.  Whenever a file is served, its path is the
    storage root joined with one path segment other than [..], the
    segment that was asked for, and the bytes are those of that file. *)
Theorem downloads_stay_in_storage_root (w : world) :
  (forall n, PyStr.contains n "../" ->
     GET_uploads ("/uploads/" ++ n) w = answers w NotFound)
  /\ download_upload ".." w = answers w NotFound
  /\ (forall path p data,
        result (GET_uploads path w) = inr (Attachment p data) ->
        exists name,
          path = ("/uploads/" ++ name)%string
          /\ PyStr.has_char PyPath.slash name = false
          /\ name <> ".." /\ name <> ""
          /\ p = PyPath.join storage_root name
          /\ fs w !! p = Some data).
Proof.
  split; [|split].
  - intros n Hn. unfold GET_uploads, match_uploads_rule.
    rewrite strip_prefix_app, (contains_dotdot_has_slash n Hn).
    rewrite andb_false_r. reflexivity.
  - unfold download_upload. rewrite send_from_directory_run. reflexivity.
  - intros path p data. unfold GET_uploads.
    destruct (match_uploads_rule path) as [name|] eqn:Hm; [|discriminate].
    apply match_uploads_rule_some in Hm as (-> & Hne & Hs).
    destruct (truthy (uid (sess w))) eqn:Hu.
    2:{ rewrite (login_required_anonymous _ _ Hu). discriminate. }
    rewrite (login_required_bound _ _ Hu). unfold download_upload.
    rewrite send_from_directory_run, (safe_join_segment _ _ Hne Hs).
    destruct (String.eqb_spec name ".."); [discriminate|].
    fold storage_root.
    destruct (fs w !! PyPath.join storage_root name) as [bytes|] eqn:Hfs;
      [|discriminate].
    simpl. intros [= <- <-]. exists name. auto 10.
Qed.

End Download.

Lemma downloads_stay_in_storage_root_witness :
  let w := with_fs {[ "/srv/nexo/data/uploads/x.xlsx" := [Byte.x31] ]}
                   (demo_world (Some 1)) in
  @GET_uploads demo "/uploads/a/../../x" w = answers w NotFound
  /\ exists name,
       "/srv/nexo/data/uploads/x.xlsx" = PyPath.join (@storage_root demo) name
       /\ name <> "..".
Proof.
  intros w.
  destruct (@downloads_stay_in_storage_root demo w) as (Hrej & _ & Hin).
  split.
  - apply (Hrej "a/../../x"). exists "a/", "../x". reflexivity.
  - destruct (Hin "/uploads/x.xlsx" "/srv/nexo/data/uploads/x.xlsx"
                [Byte.x31] eq_refl)
      as (name & _ & _ & Hdd & _ & Hp & _).
    exists name. split; assumption.
Defined.

(** * Further properties *)

(** ** Start-up *)

Lemma fold_max_ge (l : list Z) (x : Z) :
  In x l -> x <= List.fold_right Z.max 0 l.
Proof.
  induction l as [|y l IH]; simpl; [intros []|].
  intros [->|Hin]; [lia|]. specialize (IH Hin). lia.
Qed.

Lemma init_db_nonempty (h t : string) (d : database) :
  users_table d <> [] -> init_db h t d = d.
Proof.
  unfold init_db. destruct (users_table d); [congruence|]. reflexivity.
Qed.

Lemma init_db_empty (h t : string) (d : database) :
  users_table d = [] ->
  init_db h t d
  = {| users_table := [{| user_id := 1; username := "admin";
                          pass_hash := h; role := SUPERADMIN;
                          is_active := 1; created_at := t |}];
       uploads_table := uploads_table d |}.
Proof.
  unfold init_db, next_user_id. intros ->. reflexivity.
Qed.

(** X1. [init_db] run again, with another salt and at another time, changes
    nothing: no second [admin], and the hash of the first run stays. *)
Theorem init_db_idempotent (h1 t1 h2 t2 : string) (d : database) :
  init_db h2 t2 (init_db h1 t1 d) = init_db h1 t1 d.
Proof.
  apply init_db_nonempty. unfold init_db.
  destruct (users_table d) eqn:Hu; simpl; [discriminate|].
  rewrite Hu. discriminate.
Qed.

(** X2. [init_db] leaves a store with at least one account, keeps every
    account and upload that was there, and keeps the constraints of the
    schema: unique usernames, distinct positive keys and the foreign key
    of [uploads]. *)
Theorem init_db_keeps_store (h t : string) (d : database) :
  unique_usernames d -> primary_keys d -> fk_integrity d ->
  users_table (init_db h t d) <> []
  /\ (forall r, In r (users_table d) -> In r (users_table (init_db h t d)))
  /\ uploads_table (init_db h t d) = uploads_table d
  /\ unique_usernames (init_db h t d)
  /\ primary_keys (init_db h t d)
  /\ fk_integrity (init_db h t d).
Proof.
  intros Hu Hk Hfk. destruct (users_table d) as [|r0 l] eqn:Hd.
  - rewrite (init_db_empty h t d Hd). simpl.
    split; [discriminate|]. split; [intros r []|]. split; [reflexivity|].
    split; [|split].
    + unfold unique_usernames. simpl. apply NoDup_singleton.
    + split; simpl; [apply NoDup_singleton|].
      intros r [<-|[]]. simpl. lia.
    + intros row Hin. simpl in Hin. specialize (Hfk row Hin).
      unfold references_user in Hfk. rewrite Hd in Hfk. discriminate.
  - rewrite (init_db_nonempty h t d) by (rewrite Hd; discriminate).
    rewrite Hd. split; [discriminate|]. auto.
Qed.

Lemma init_db_keeps_store_witness :
  users_table (init_db "h" "t" demo_db) <> []
  /\ unique_usernames (init_db "h" "t" empty_db).
Proof.
  assert (Hk : primary_keys demo_db).
  { split; simpl.
    - rewrite !NoDup_cons, !elem_of_cons, !elem_of_nil.
      intuition (try discriminate). apply NoDup_nil_2.
    - intros r [<-|[<-|[]]]; simpl; lia. }
  assert (Hf : fk_integrity demo_db) by (intros row []).
  split.
  - apply (init_db_keeps_store "h" "t" demo_db demo_db_unique Hk Hf).
  - apply (init_db_keeps_store "h" "t" empty_db).
    + apply NoDup_nil_2.
    + split; [apply NoDup_nil_2|intros r []].
    + intros row [].
Defined.

(** ** Pages and decorated views, case by case *)

Lemma render_page_run (b : page_body) (t st : string) (w : world) :
  render_page b t st w = answers (unflashed w) (Html (page_in w b t st)).
Proof.
  unfold render_page, bind at 1. rewrite current_user_run. reflexivity.
Qed.

Lemma require_roles_allowed (roles : list Role) (f : M response)
  (w : world) :
  authorized (resolved_user w) roles = true -> require_roles roles f w = f w.
Proof.
  intros Ha. unfold require_roles, bind at 1.
  rewrite current_user_run. simpl. rewrite Ha. simpl.
  destruct (f w) as [tr w' [e|r]]; reflexivity.
Qed.

Lemma require_roles_denied (roles : list Role) (f : M response)
  (w : world) :
  authorized (resolved_user w) roles = false ->
  require_roles roles f w
  = answers (flashed "error" MSG_FORBIDDEN w) (Redirect "/dashboard").
Proof.
  intros Ha. unfold require_roles, bind at 1.
  rewrite current_user_run. simpl. rewrite Ha. reflexivity.
Qed.

Lemma resolved_user_truthy (w : world) (r : user_row) :
  resolved_user w = Some r -> truthy (uid (sess w)) = true.
Proof.
  rewrite resolved_user_eq. destruct (uid (sess w)) as [i|]; [|discriminate].
  simpl. destruct (i =? 0); [discriminate|reflexivity].
Qed.

Lemma users_run (w : world) :
  users w
  = answers (unflashed w)
      (Html (page_in w (UsersBody (select_users (db w))) APP_NAME
               ("Administraci" ++ chr 243 ++ "n de usuarios"))).
Proof.
  unfold users, bind at 1. simpl. rewrite render_page_run. reflexivity.
Qed.

Lemma dashboard_run (w : world) :
  dashboard w =
  match resolved_user w with
  | Some r =>
      answers (unflashed w)
        (Html (page_in w
                 (DashboardBody (select_recent_uploads (db w))
                    (Role_eqb (role r) SUPERADMIN || Role_eqb (role r) ADMIN))
                 APP_NAME "Sistema local RRHH"))
  | None => Outcome [] w (inl TypeError)
  end.
Proof.
  unfold dashboard, bind at 1. rewrite current_user_run. simpl.
  destruct (resolved_user w) as [r|] eqn:Hr; [|reflexivity].
  unfold bind, subscript, ret. cbn [result final trace].
  rewrite render_page_run. reflexivity.
Qed.



(** ** Session: messages, theme, logout *)

(** X5. A flashed message is shown, after the messages that were waiting, by
    the next page that is rendered, and by no page after it: rendering
    hands the messages out and removes them from the session, and
    changes nothing else. *)
Theorem flashed_message_shown_once (w : world) (c m : string)
  (b1 b2 : page_body) (t1 st1 t2 st2 : string) :
  let o1 := render_page b1 t1 st1 (flashed c m w) in
  let o2 := render_page b2 t2 st2 (final o1) in
  (exists p1, result o1 = inr (Html p1)
              /\ page_flashes p1 = (flashes (sess w) ++ [(c, m)])%list)
  /\ (exists p2, result o2 = inr (Html p2) /\ page_flashes p2 = [])
  /\ uid (sess (final o2)) = uid (sess w)
  /\ theme (sess (final o2)) = theme (sess w)
  /\ db (final o2) = db w /\ fs (final o2) = fs w
  /\ trace o1 = [] /\ trace o2 = [].
Proof.
  intros o1 o2. subst o1 o2. rewrite !render_page_run. simpl.
  split; [eexists; split; reflexivity|].
  split; [eexists; split; reflexivity|]. repeat split.
Qed.

Lemma toggle_theme_run (referer : option string) (w : world) :
  toggle_theme referer w
  = answers
      (with_sess {| uid := uid (sess w);
                    theme := Some (if String.eqb (session_theme (sess w)) "light"
                                   then "dark" else "light");
                    flashes := flashes (sess w) |} w)
      (Redirect match referer with
                | Some r => if String.eqb r "" then "/dashboard" else r
                | None => "/dashboard"
                end).
Proof. reflexivity. Qed.

(** X6. [toggle_theme] always changes the theme in force, to [dark] from
    [light] and to [light] from anything else, and touches nothing but
    the theme; from [light] or [dark] a second switch gives the first
    theme back.  It answers with a redirect to the [Referer] of the
    request, or to the dashboard when there is none or it is empty. *)
Theorem toggle_theme_switches (r1 r2 : option string) (w : world) :
  let o1 := toggle_theme r1 w in
  let o2 := toggle_theme r2 (final o1) in
  session_theme (sess (final o1)) <> session_theme (sess w)
  /\ (session_theme (sess (final o1)) = "dark"
      <-> session_theme (sess w) = "light")
  /\ (session_theme (sess w) = "light" \/ session_theme (sess w) = "dark" ->
      session_theme (sess (final o2)) = session_theme (sess w))
  /\ uid (sess (final o1)) = uid (sess w)
  /\ flashes (sess (final o1)) = flashes (sess w)
  /\ db (final o1) = db w /\ fs (final o1) = fs w /\ trace o1 = []
  /\ (forall url, r1 = Some url -> url <> "" -> result o1 = inr (Redirect url))
  /\ (r1 = None \/ r1 = Some "" -> result o1 = inr (Redirect "/dashboard")).
Proof.
  intros o1 o2. subst o1 o2. rewrite !toggle_theme_run.
  cbn [final answers result trace sess with_sess uid flashes db fs].
  remember (session_theme (sess w)) as th eqn:Hth.
  unfold session_theme, default. cbn [from_option theme id].
  split; [|split; [|split]].
  - destruct (String.eqb_spec th "light") as [->|]; [discriminate|congruence].
  - destruct (String.eqb_spec th "light") as [->|]; split; congruence.
  - intros [->| ->]; reflexivity.
  - repeat split.
    + intros url -> Hne. destruct (String.eqb_spec url ""); [contradiction|].
      reflexivity.
    + intros [->| ->]; reflexivity.
Qed.

Lemma toggle_theme_switches_witness :
  session_theme (sess (final (toggle_theme None
     (final (toggle_theme (Some "/users") (demo_world (Some 1)))))))
  = session_theme (sess (demo_world (Some 1))).
Proof.
  apply (toggle_theme_switches (Some "/users") None (demo_world (Some 1))).
  left. reflexivity.
Defined.

(** X7. After [logout], whatever the session was, the session holds no
    user, no theme and no message; [current_user] gives no user, [/]
    and every route behind [login_required] redirect to the login page;
    the store and the files are as they were. *)
Theorem logout_ends_session {P : Platform} (w : world) (req : request)
  (path name : string) :
  match_uploads_rule path = Some name ->
  let w' := final (logout w) in
  logout w = answers w' (Redirect "/login")
  /\ sess w' = {| uid := None; theme := None; flashes := [] |}
  /\ db w' = db w /\ fs w' = fs w
  /\ resolved_user w' = None
  /\ index w' = answers w' (Redirect "/login")
  /\ GET_dashboard w' = answers w' (Redirect "/login")
  /\ POST_upload req w' = answers w' (Redirect "/login")
  /\ GET_uploads path w' = answers w' (Redirect "/login")
  /\ GET_users w' = answers w' (Redirect "/login").
Proof.
  intros Hm w'. subst w'. unfold GET_dashboard, POST_upload, GET_uploads,
    GET_users. rewrite Hm.
  repeat split; apply login_required_anonymous; reflexivity.
Qed.

Lemma logout_ends_session_witness :
  @GET_uploads demo "/uploads/a.xlsx" (final (logout (demo_world (Some 1))))
  = answers (final (logout (demo_world (Some 1)))) (Redirect "/login").
Proof.
  apply (@logout_ends_session demo (demo_world (Some 1))
           (upload_form "a.xlsx" [] (noon 0)) "/uploads/a.xlsx" "a.xlsx").
  reflexivity.
Defined.

(** ** Listings *)

Section OrderBy.

Context {A : Type} (le : A -> A -> bool).

Hypothesis le_total : forall a b, le a b = true \/ le b a = true.

Let R (a b : A) : Prop := le a b = true.

Lemma insert_by_perm (x : A) (l : list A) :
  Permutation (insert_by le x l) (x :: l).
Proof.
  induction l as [|y l IH]; simpl; [reflexivity|].
  destruct (le y x); [|reflexivity].
  rewrite IH. apply perm_swap.
Qed.

Lemma fold_insert_perm (l acc : list A) :
  Permutation (List.fold_left (fun acc x => insert_by le x acc) l acc)
              (l ++ acc).
Proof.
  revert acc. induction l as [|x l IH]; intros acc; simpl; [reflexivity|].
  rewrite IH, insert_by_perm. symmetry. apply Permutation_middle.
Qed.

Lemma order_by_perm (l : list A) : Permutation (order_by le l) l.
Proof.
  unfold order_by. rewrite fold_insert_perm, List.app_nil_r. reflexivity.
Qed.

Lemma insert_by_hdrel (a x : A) (l : list A) :
  R a x -> HdRel R a l -> HdRel R a (insert_by le x l).
Proof.
  intros Hax Hal. destruct l as [|y l]; simpl; [constructor; exact Hax|].
  destruct (le y x); constructor; [|exact Hax].
  inversion Hal; assumption.
Qed.

Lemma insert_by_sorted (x : A) (l : list A) :
  Sorted R l -> Sorted R (insert_by le x l).
Proof.
  induction l as [|y l IH]; simpl; intros Hs.
  - constructor; constructor.
  - inversion Hs as [|? ? Hl Hy]; subst.
    destruct (le y x) eqn:Hyx.
    + constructor; [apply IH, Hl|]. apply insert_by_hdrel; assumption.
    + constructor; [exact Hs|]. constructor.
      destruct (le_total x y) as [H|H]; [exact H|congruence].
Qed.

Lemma fold_insert_sorted (l acc : list A) :
  Sorted R acc ->
  Sorted R (List.fold_left (fun acc x => insert_by le x acc) l acc).
Proof.
  revert acc. induction l as [|x l IH]; intros acc Hs; simpl; [exact Hs|].
  apply IH, insert_by_sorted, Hs.
Qed.

Lemma order_by_sorted (l : list A) : Sorted R (order_by le l).
Proof. apply fold_insert_sorted. constructor. Qed.

End OrderBy.

Lemma sorted_firstn {A : Type} (R : A -> A -> Prop) (n : nat) (l : list A) :
  Sorted R l -> Sorted R (List.firstn n l).
Proof.
  revert l. induction n as [|n IH]; intros l Hs; [constructor|].
  destruct l as [|x l]; [constructor|]. simpl.
  inversion Hs as [|? ? Hl Hx]; subst. constructor; [apply IH, Hl|].
  destruct n as [|n]; [constructor|].
  destruct l as [|y l]; simpl; constructor. inversion Hx; assumption.
Qed.

Lemma strongly_sorted_app {A : Type} (R : A -> A -> Prop) (l1 l2 : list A) :
  StronglySorted R (l1 ++ l2) ->
  forall x y, In x l1 -> In y l2 -> R x y.
Proof.
  induction l1 as [|a l1 IH]; simpl; intros Hs x y Hx Hy; [destruct Hx|].
  inversion Hs as [|? ? Hl Ha]; subst. destruct Hx as [->|Hx].
  - rewrite List.Forall_forall in Ha. apply Ha, List.in_or_app. right. exact Hy.
  - exact (IH Hl x y Hx Hy).
Qed.

Lemma sorted_impl {A : Type} (R R' : A -> A -> Prop) (l : list A) :
  (forall a b, R a b -> R' a b) -> Sorted R l -> Sorted R' l.
Proof.
  intros Himp. induction 1 as [|a l Hl IH Ha]; constructor; [exact IH|].
  destruct Ha; constructor. apply Himp. assumption.
Qed.

Lemma in_firstn {A : Type} (n : nat) (l : list A) (x : A) :
  In x (List.firstn n l) -> In x l.
Proof.
  revert l. induction n as [|n IH]; intros [|y l]; simpl; try tauto.
  intros [->|H]; [left; reflexivity|right; apply IH, H].
Qed.

(** The rows of the join of [uploads] with [users]. *)
Lemma joined_row_iff (d : database) (up : upload_row) (n : string) :
  In (up, n)
     (List.flat_map
        (fun up => List.map (fun us => (up, username us))
                     (List.filter (fun us => user_id us =? uploaded_by up)
                                  (users_table d)))
        (uploads_table d))
  <-> In up (uploads_table d)
      /\ exists us, In us (users_table d)
                    /\ user_id us = uploaded_by up /\ username us = n.
Proof.
  rewrite List.in_flat_map. split.
  - intros (up' & Hup & Hin). apply List.in_map_iff in Hin as (us & [= <- <-] & Hf).
    apply List.filter_In in Hf as [Hus Hid]. apply Z.eqb_eq in Hid.
    split; [exact Hup|]. exists us. auto.
  - intros (Hup & us & Hus & Hid & <-). exists up. split; [exact Hup|].
    apply List.in_map_iff. exists us. split; [reflexivity|].
    apply List.filter_In. split; [exact Hus|]. apply Z.eqb_eq, Hid.
Qed.

(** X9. The dashboard lists at most 20 uploads, the newest key first; each
    listed row is a row of [uploads] with the username of the account
    that its [uploaded_by] names; and an upload with such an account
    that is not listed is no newer than any of the 20 that are. *)
Theorem recent_uploads_listing (d : database) :
  let rows := select_recent_uploads d in
  (List.length rows <= 20)%nat
  /\ Sorted (fun a b => upload_id (fst b) <= upload_id (fst a)) rows
  /\ (forall up n, In (up, n) rows ->
        In up (uploads_table d)
        /\ exists us, In us (users_table d)
                      /\ user_id us = uploaded_by up /\ username us = n)
  /\ (forall up us,
        In up (uploads_table d) -> In us (users_table d) ->
        user_id us = uploaded_by up ->
        In (up, username us) rows
        \/ (List.length rows = 20%nat
            /\ forall row, In row rows -> upload_id up <= upload_id (fst row))).
Proof.
  intros rows. subst rows. unfold select_recent_uploads.
  set (le := fun a b : upload_row * string =>
               upload_id (fst b) <=? upload_id (fst a)).
  set (joined := List.flat_map _ (uploads_table d)).
  assert (Htot : forall a b, le a b = true \/ le b a = true).
  { intros a b. unfold le.
    destruct (Z.leb_spec (upload_id (fst b)) (upload_id (fst a)));
      [left; reflexivity|right; apply Z.leb_le; lia]. }
  assert (Hsorted : Sorted (fun a b => upload_id (fst b) <= upload_id (fst a))
                           (order_by le joined)).
  { apply (sorted_impl (fun a b => le a b = true)).
    - intros a b H. apply Z.leb_le, H.
    - apply order_by_sorted, Htot. }
  assert (Hperm : Permutation (order_by le joined) joined)
    by apply order_by_perm.
  split; [apply List.firstn_le_length|].
  split; [apply sorted_firstn, Hsorted|]. split.
  - intros up n Hin. apply in_firstn in Hin.
    apply (Permutation_in _ Hperm) in Hin. apply joined_row_iff, Hin.
  - intros up us Hup Hus Hid.
    assert (Hin : In (up, username us) (order_by le joined)).
    { apply (Permutation_in _ (Permutation_sym Hperm)).
      apply joined_row_iff. split; [exact Hup|]. exists us. auto. }
    rewrite <- (List.firstn_skipn 20 (order_by le joined)) in Hin.
    apply List.in_app_or in Hin as [Hin|Hin]; [left; exact Hin|right].
    split.
    + apply List.firstn_length_le.
      destruct (le_lt_dec 20 (List.length (order_by le joined))) as [H|H];
        [exact H|].
      rewrite List.skipn_all2 in Hin by lia. destruct Hin.
    + intros row Hrow.
      apply Sorted_StronglySorted in Hsorted; [|intros a b c; simpl; lia].
      rewrite <- (List.firstn_skipn 20 (order_by le joined)) in Hsorted.
      exact (strongly_sorted_app _ _ _ Hsorted _ _ Hrow Hin).
Qed.

(** X10. [/users], for a live [SUPERADMIN] or [ADMIN], shows every account
    of the table, the inactive ones too, each once, by ascending key;
    for a live user with another role it flashes the message of the
    missing permission and redirects to the dashboard. *)
Theorem users_page_lists_all_accounts (w : world) (r : user_row) :
  resolved_user w = Some r ->
  (role r = SUPERADMIN \/ role r = ADMIN ->
   exists rows,
     GET_users w
     = answers (unflashed w)
         (Html (page_in w (UsersBody rows) APP_NAME
                  ("Administraci" ++ chr 243 ++ "n de usuarios")))
     /\ Permutation rows (users_table (db w))
     /\ Sorted (fun a b => user_id a <= user_id b) rows)
  /\ (role r = RRHH \/ role r = LECTOR ->
      GET_users w
      = answers (flashed "error" MSG_FORBIDDEN w) (Redirect "/dashboard")).
Proof.
  intros Hr. unfold GET_users.
  rewrite (login_required_bound _ _ (resolved_user_truthy _ _ Hr)). split.
  - intros Hrole. exists (select_users (db w)).
    rewrite require_roles_allowed, users_run
      by (rewrite Hr; simpl; destruct Hrole as [-> | ->]; reflexivity).
    split; [reflexivity|]. split; [apply order_by_perm|].
    apply (sorted_impl (fun a b => (user_id a <=? user_id b) = true)).
    + intros a b H. apply Z.leb_le, H.
    + apply order_by_sorted. intros a b.
      destruct (Z.leb_spec (user_id a) (user_id b));
        [left; reflexivity|right; apply Z.leb_le; lia].
  - intros Hrole. apply require_roles_denied. rewrite Hr. simpl.
    destruct Hrole as [-> | ->]; reflexivity.
Qed.

Lemma users_page_lists_all_accounts_witness :
  exists rows,
    GET_users (demo_world (Some 1))
    = answers (unflashed (demo_world (Some 1)))
        (Html (page_in (demo_world (Some 1)) (UsersBody rows) APP_NAME
                 ("Administraci" ++ chr 243 ++ "n de usuarios")))
    /\ Permutation rows [admin_row; ana_row]
    /\ Sorted (fun a b => user_id a <= user_id b) rows.
Proof.
  apply (users_page_lists_all_accounts (demo_world (Some 1)) admin_row);
    [reflexivity|left; reflexivity].
Defined.

(** ** The dashboard *)

(** X8. [/dashboard] for a live user is a page: it shows the user, the
    theme, the waiting messages and the recent uploads, with the block
    of the administration exactly for a [SUPERADMIN] or an [ADMIN], and
    it changes nothing but the waiting messages.  It raises [TypeError]
    exactly when the session holds an id that [current_user] does not
    resolve, and then the world is as it was. *)
Theorem dashboard_page_or_type_error (w : world) :
  (forall r, resolved_user w = Some r ->
     exists admin_block,
       GET_dashboard w
       = answers (unflashed w)
           (Html (page_in w
                    (DashboardBody (select_recent_uploads (db w)) admin_block)
                    APP_NAME "Sistema local RRHH"))
       /\ (admin_block = true <-> role r = SUPERADMIN \/ role r = ADMIN))
  /\ (result (GET_dashboard w) = inl TypeError
      <-> truthy (uid (sess w)) = true /\ resolved_user w = None)
  /\ (result (GET_dashboard w) = inl TypeError ->
      GET_dashboard w = Outcome [] w (inl TypeError)).
Proof.
  unfold GET_dashboard.
  assert (Hstale : truthy (uid (sess w)) = true -> resolved_user w = None ->
                   login_required dashboard w = Outcome [] w (inl TypeError)).
  { intros Hu Hr. rewrite (login_required_bound _ _ Hu), dashboard_run, Hr.
    reflexivity. }
  assert (Hiff : result (login_required dashboard w) = inl TypeError ->
                 truthy (uid (sess w)) = true /\ resolved_user w = None).
  { destruct (truthy (uid (sess w))) eqn:Hu.
    - rewrite (login_required_bound _ _ Hu), dashboard_run.
      destruct (resolved_user w); [discriminate|auto].
    - rewrite (login_required_anonymous _ _ Hu). discriminate. }
  split; [|split].
  - intros r Hr.
    rewrite (login_required_bound _ _ (resolved_user_truthy _ _ Hr)).
    rewrite dashboard_run, Hr. eexists. split; [reflexivity|].
    destruct (role r); simpl; split; intros H;
      try reflexivity; try discriminate; try (destruct H; discriminate); auto.
  - split; [exact Hiff|]. intros [Hu Hr]. rewrite (Hstale Hu Hr). reflexivity.
  - intros H. apply Hiff in H as [Hu Hr]. exact (Hstale Hu Hr).
Qed.

(** ** More on uploads *)

Section UploadCases.

Context {P : Platform}.

(** X11. A request to [/upload] without a file, or with a file without a
    name, is answered by the message of the missing file and a redirect
    to the dashboard, before the extension and the user are looked at:
    nothing is written, and a session whose user is gone gets the same
    answer. *)
Theorem upload_without_file (w : world) (req : request) :
  truthy (uid (sess w)) = true ->
  (files_file req = None
   \/ exists f, files_file req = Some f /\ filename f = "") ->
  POST_upload req w
  = answers (flashed "error" MSG_NO_FILE w) (Redirect "/dashboard").
Proof.
  intros Hu Hf. unfold POST_upload.
  rewrite (login_required_bound _ _ Hu), upload_run.
  destruct Hf as [-> | (f & -> & ->)]; reflexivity.
Qed.

(** X12. [/upload] never ends with [IntegrityError].  It ends with
    [TypeError] exactly when the session holds an id that
    [current_user] does not resolve and the file passes the checks of
    the name and the extension; the file has then been written under
    its stored name, and no row names it. *)
Theorem upload_faults (w : world) (req : request) :
  result (POST_upload req w) <> inl IntegrityError
  /\ (result (POST_upload req w) = inl TypeError
      <-> truthy (uid (sess w)) = true /\ resolved_user w = None
          /\ exists f, files_file req = Some f /\ filename f <> ""
                       /\ PyStr.lower (PyPath.suffix (filename f))
                          ∈ ALLOWED_EXT)
  /\ (result (POST_upload req w) = inl TypeError ->
      exists f,
        files_file req = Some f
        /\ let path := upload_path (stored_name_for (now req) (filename f)) in
           POST_upload req w
           = Outcome [(FsWrite path (content f), saved path (content f) w)]
                     (saved path (content f) w) (inl TypeError)).
Proof.
  unfold POST_upload. destruct (truthy (uid (sess w))) eqn:Hu.
  2:{ rewrite (login_required_anonymous _ _ Hu).
      split; [discriminate|]. split; [|discriminate].
      split; [discriminate|]. intros [[=] _]. }
  rewrite (login_required_bound _ _ Hu), upload_run.
  destruct (files_file req) as [f|].
  2:{ split; [discriminate|]. split; [|discriminate].
      split; [discriminate|]. intros (_ & _ & f & [=] & _). }
  destruct (String.eqb_spec (filename f) "") as [He|He].
  { split; [discriminate|]. split; [|discriminate].
    split; [discriminate|]. intros (_ & _ & g & [= <-] & Hn & _).
    contradiction. }
  destruct (bool_decide (PyStr.lower (PyPath.suffix (filename f))
                         ∈ ALLOWED_EXT)) eqn:Hx.
  2:{ apply bool_decide_eq_false in Hx.
      split; [discriminate|]. split; [|discriminate].
      split; [discriminate|]. intros (_ & _ & g & [= <-] & _ & Hin).
      contradiction. }
  apply bool_decide_eq_true in Hx. cbv zeta.
  destruct (resolved_user w) as [r|]; simpl.
  - split; [discriminate|]. split; [|discriminate].
    split; [discriminate|]. intros (_ & [=] & _).
  - split; [discriminate|]. split.
    + split; [|reflexivity]. intros _. split; [reflexivity|].
      split; [reflexivity|]. exists f. auto.
    + intros _. exists f. split; reflexivity.
Qed.

End UploadCases.

Lemma upload_without_file_witness :
  @POST_upload demo (login_form "" "" (noon 0)) (demo_world (Some 2))
  = answers (flashed "error" MSG_NO_FILE (demo_world (Some 2)))
            (Redirect "/dashboard").
Proof.
  apply (@upload_without_file demo (demo_world (Some 2))
           (login_form "" "" (noon 0))); [reflexivity|].
  left. reflexivity.
Defined.

(** ** What an upload keeps *)

Lemma next_upload_id_fresh (d : database) (row : upload_row) :
  In row (uploads_table d) -> upload_id row < next_upload_id d.
Proof.
  intros Hin. unfold next_upload_id.
  assert (upload_id row <= List.fold_right Z.max 0
                             (List.map upload_id (uploads_table d)))
    by (apply fold_max_ge, List.in_map, Hin).
  lia.
Qed.

Lemma next_upload_id_pos (d : database) : 0 < next_upload_id d.
Proof.
  unfold next_upload_id.
  assert (0 <= List.fold_right Z.max 0 (List.map upload_id (uploads_table d))).
  { induction (List.map upload_id (uploads_table d)); simpl; lia. }
  lia.
Qed.

Section UploadInvariants.

Context {P : Platform}.

(** What holds of every state of a run of [/upload] that starts in [w]. *)
Let kept (w w' : world) : Prop :=
  grows_from w w' /\ fk_integrity (db w') /\ upload_keys (db w')
  /\ uid (sess w') = uid (sess w).

Lemma kept_refl (w : world) :
  fk_integrity (db w) -> upload_keys (db w) -> kept w w.
Proof.
  intros Hfk Hk. split; [|auto].
  split; [reflexivity|]. split; [|auto].
  exists []. symmetry. apply List.app_nil_r.
Qed.

Lemma kept_flashed (w w' : world) (c m : string) :
  kept w w' -> kept w (flashed c m w').
Proof. intros H. exact H. Qed.

Lemma kept_saved (w : world) (path : string) (data : list Byte.byte) :
  fk_integrity (db w) -> upload_keys (db w) -> kept w (saved path data w).
Proof.
  intros Hfk Hk. split; [|auto].
  split; [reflexivity|]. split.
  - exists []. symmetry. apply List.app_nil_r.
  - intros p Hp. simpl. destruct (decide (path = p)) as [->|Hne].
    + rewrite lookup_insert_eq. eauto.
    + rewrite lookup_insert_ne by exact Hne. exact Hp.
Qed.

Lemma kept_recorded (w w' : world) (original stored note at_time : string)
  (i : Z) :
  kept w w' -> uploads_table (db w') = uploads_table (db w) ->
  references_user i (db w) = true ->
  kept w (recorded (new_upload_row (db w) original stored i note at_time) w').
Proof.
  intros ((Hus & _ & Hfs) & Hfk & (Hnd & Hpos) & Huid) Hup Href.
  assert (Hrefs : forall j d', users_table d' = users_table (db w) ->
                    references_user j d' = references_user j (db w)).
  { intros j d' Hd. unfold references_user. rewrite Hd. reflexivity. }
  split; [|split; [|split]].
  - split; [exact Hus|]. split; [|exact Hfs].
    eexists. simpl. rewrite Hup. reflexivity.
  - intros row Hin. simpl in Hin.
    rewrite (Hrefs _ (db (recorded _ w')) Hus).
    apply List.in_app_or in Hin as [Hin|[<-|[]]].
    + rewrite <- (Hrefs _ (db w') Hus). apply Hfk, Hin.
    + exact Href.
  - simpl. rewrite Hup in *. split; cbn [uploads_table].
    + rewrite List.map_app. apply NoDup_app. split; [exact Hnd|].
      split; [|apply NoDup_singleton].
      intros x Hx Hx'. apply list_elem_of_In in Hx.
      apply List.in_map_iff in Hx as (row & <- & Hrow).
      apply list_elem_of_singleton in Hx'. simpl in Hx'.
      pose proof (next_upload_id_fresh (db w) row Hrow). lia.
    + intros row Hin. apply List.in_app_or in Hin as [Hin|[<-|[]]].
      * apply Hpos, Hin.
      * simpl. apply next_upload_id_pos.
  - exact Huid.
Qed.

(** X13. In every state of a run of [/upload], and at its end, the accounts
    are untouched, the rows of [uploads] that were there are in place
    (at most new rows follow them), no file has disappeared, the session
    holds the same user id, the foreign key of [uploads] holds and the
    keys of [uploads] are distinct and positive. *)
Theorem upload_keeps_constraints (w : world) (req : request) :
  fk_integrity (db w) -> upload_keys (db w) ->
  let o := POST_upload req w in
  Forall (fun w' => grows_from w w' /\ fk_integrity (db w')
                    /\ upload_keys (db w') /\ uid (sess w') = uid (sess w))
         (states_of o ++ [final o]).
Proof.
  intros Hfk Hk o. subst o. fold (kept w).
  pose proof (kept_refl w Hfk Hk) as H0.
  unfold POST_upload. destruct (truthy (uid (sess w))) eqn:Hu.
  2:{ rewrite (login_required_anonymous _ _ Hu). repeat constructor; apply H0. }
  rewrite (login_required_bound _ _ Hu), upload_run.
  destruct (files_file req) as [f|];
    [|repeat constructor; apply H0].
  destruct (String.eqb (filename f) ""); [repeat constructor; apply H0|].
  destruct (bool_decide _); [|repeat constructor; apply H0].
  cbv zeta. set (path := upload_path _).
  pose proof (kept_saved w path (content f) Hfk Hk) as H1.
  destruct (resolved_user w) as [r|] eqn:Hr; unfold states_of; simpl.
  - assert (H2 := kept_recorded w (saved path (content f) w) (filename f)
                    (stored_name_for (now req) (filename f))
                    (PyStr.strip (or_empty (form_notes req))) (db_now req)
                    (user_id r) H1 eq_refl (resolved_user_referenced w r Hr)).
    repeat constructor; first [apply H1 | apply H2].
  - repeat constructor; apply H1.
Qed.

End UploadInvariants.

Lemma upload_keeps_constraints_witness :
  Forall (fun w' => grows_from (demo_world (Some 1)) w'
                    /\ fk_integrity (db w') /\ upload_keys (db w')
                    /\ uid (sess w') = Some 1)
         (states_of (@POST_upload demo (upload_form "a.xlsx" [] (noon 0))
                       (demo_world (Some 1)))
          ++ [final (@POST_upload demo (upload_form "a.xlsx" [] (noon 0))
                       (demo_world (Some 1)))]).
Proof.
  apply (@upload_keeps_constraints demo (demo_world (Some 1))
           (upload_form "a.xlsx" [] (noon 0))).
  - intros row [].
  - split; [apply NoDup_nil_2|intros row []].
Defined.

(** ** From an upload to its download and to the dashboard *)

Lemma strftime_no_slash (t : datetime) :
  PyStr.has_char PyPath.slash (strftime t) = false.
Proof.
  unfold strftime, dec4, dec2, PyPath.slash.
  cbv beta iota delta [String.append PyStr.has_char].
  rewrite !digit_not_slash. reflexivity.
Qed.

Lemma filter_unique_key {A : Type} (f : A -> Z) (l : list A) (a : A) :
  NoDup (List.map f l) -> In a l ->
  List.filter (fun x => f x =? f a) l = [a].
Proof.
  induction l as [|y l IH]; simpl; [intros _ []|].
  intros [Hy Hl]%NoDup_cons Hin. rewrite list_elem_of_In in Hy.
  assert (Hnone : forall b, ~ In (f b) (List.map f l) ->
                    List.filter (fun x => f x =? f b) l = []).
  { intros b Hb. clear -Hb. induction l as [|z l IHl]; [reflexivity|].
    simpl in *. destruct (Z.eqb_spec (f z) (f b)) as [E|_]; [tauto|].
    apply IHl. tauto. }
  destruct Hin as [->|Hin].
  - rewrite Z.eqb_refl, (Hnone a Hy). reflexivity.
  - destruct (Z.eqb_spec (f y) (f a)) as [E|_].
    + exfalso. apply Hy. rewrite E. apply List.in_map, Hin.
    + apply IH; assumption.
Qed.

Lemma insert_by_front {A : Type} (le : A -> A -> bool) (x : A)
  (l : list A) :
  (forall y, In y l -> le y x = false) -> insert_by le x l = x :: l.
Proof.
  destruct l as [|y l]; [reflexivity|]. intros H. simpl.
  rewrite (H y (or_introl eq_refl)). reflexivity.
Qed.

Section AfterUpload.

Context {P : Platform}.

Lemma stored_name_segment (t : datetime) (n : string) :
  PyStr.has_char PyPath.slash (secure_filename n) = false ->
  stored_name_for t n <> ""
  /\ stored_name_for t n <> ".."
  /\ PyStr.has_char PyPath.slash (stored_name_for t n) = false.
Proof.
  intros Hn. split; [|split].
  - unfold stored_name_for, strftime, dec4.
    cbv beta iota delta [String.append]. discriminate.
  - unfold stored_name_for, strftime, dec4, dec2.
    cbv beta iota delta [String.append]. discriminate.
  - unfold stored_name_for. rewrite !has_char_app, strftime_no_slash, Hn.
    reflexivity.
Qed.

Lemma POST_upload_accepted (w : world) (req : request) (f : file_storage)
  (r : user_row) :
  files_file req = Some f -> filename f <> "" ->
  PyStr.lower (PyPath.suffix (filename f)) ∈ ALLOWED_EXT ->
  resolved_user w = Some r ->
  let stored := stored_name_for (now req) (filename f) in
  let w1 := saved (upload_path stored) (content f) w in
  let row := new_upload_row (db w) (filename f) stored (user_id r)
               (PyStr.strip (or_empty (form_notes req))) (db_now req) in
  POST_upload req w
  = Outcome [(FsWrite (upload_path stored) (content f), w1);
             (DbInsertUpload row, recorded row w1)]
            (flashed "ok" MSG_UPLOADED (recorded row w1))
            (inr (Redirect "/dashboard")).
Proof.
  intros Hf Hn He Hr. unfold POST_upload.
  rewrite (login_required_bound _ _ (resolved_user_truthy _ _ Hr)).
  rewrite upload_run, Hf.
  destruct (String.eqb_spec (filename f) ""); [contradiction|].
  rewrite bool_decide_eq_true_2 by exact He. cbv zeta. rewrite Hr.
  reflexivity.
Qed.

(** X14. The bytes of an upload that went through come back from
    [/uploads/] followed by its stored name, the link the dashboard
    gives: the answer is the file at the path the upload wrote, as an
    attachment with the bytes that were sent.  ([secure_filename]
    returns a name without a slash, and [UPLOADS_DIR] is not empty.) *)
Theorem upload_then_download (w : world) (req : request)
  (f : file_storage) (r : user_row) :
  UPLOADS_DIR <> "" ->
  PyStr.has_char PyPath.slash (secure_filename (filename f)) = false ->
  files_file req = Some f -> filename f <> "" ->
  PyStr.lower (PyPath.suffix (filename f)) ∈ ALLOWED_EXT ->
  resolved_user w = Some r ->
  let w' := final (POST_upload req w) in
  let stored := stored_name_for (now req) (filename f) in
  GET_uploads ("/uploads/" ++ stored) w'
  = Outcome [(FsIsFile (upload_path stored), w');
             (FsRead (upload_path stored), w')]
            w' (inr (Attachment (upload_path stored) (content f))).
Proof.
  intros Hdir Hsafe Hf Hn He Hr w' stored. subst w'.
  rewrite (POST_upload_accepted w req f r Hf Hn He Hr). cbn [final].
  fold stored.
  destruct (stored_name_segment (now req) (filename f) Hsafe)
    as (Hne & Hdd & Hs). fold stored in Hne, Hdd, Hs.
  unfold GET_uploads, match_uploads_rule. rewrite strip_prefix_app, Hs.
  destruct (String.eqb_spec stored ""); [contradiction|]. simpl.
  rewrite login_required_bound
    by (simpl; exact (resolved_user_truthy _ _ Hr)).
  unfold download_upload.
  rewrite send_from_directory_run, (safe_join_segment _ _ Hne Hs).
  destruct (String.eqb_spec stored ".."); [contradiction|].
  destruct (String.eqb_spec UPLOADS_DIR ""); [contradiction|].
  fold (upload_path stored). simpl. rewrite lookup_insert_eq. reflexivity.
Qed.

(** X15. After an upload that went through, with distinct keys in [users],
    the dashboard opens with the new upload: its first row carries the
    file name as it was sent, the stored name and the username of the
    uploader, and the page shows the message of the upload last. *)
Theorem upload_then_dashboard (w : world) (req : request)
  (f : file_storage) (r : user_row) :
  primary_keys (db w) ->
  files_file req = Some f -> filename f <> "" ->
  PyStr.lower (PyPath.suffix (filename f)) ∈ ALLOWED_EXT ->
  resolved_user w = Some r ->
  let w' := final (POST_upload req w) in
  exists row rest admin_block,
    GET_dashboard w'
    = answers (unflashed w')
        (Html (page_in w'
                 (DashboardBody ((row, username r) :: rest) admin_block)
                 APP_NAME "Sistema local RRHH"))
    /\ original_name row = filename f
    /\ stored_name row = stored_name_for (now req) (filename f)
    /\ uploaded_by row = user_id r
    /\ flashes (sess w') = (flashes (sess w) ++ [("ok", MSG_UPLOADED)])%list.
Proof.
  intros [Hk _] Hf Hn He Hr w'. subst w'.
  rewrite (POST_upload_accepted w req f r Hf Hn He Hr). cbn [final].
  set (stored := stored_name_for (now req) (filename f)).
  set (row := new_upload_row (db w) (filename f) stored (user_id r) _ _).
  set (w' := flashed "ok" MSG_UPLOADED (recorded row _)).
  assert (Hr' : resolved_user w' = Some r).
  { rewrite resolved_user_eq in Hr |- *. exact Hr. }
  destruct (resolved_user_in_table w r Hr) as (Hin & _).
  unfold GET_dashboard.
  rewrite (login_required_bound _ _ (resolved_user_truthy _ _ Hr')).
  rewrite dashboard_run, Hr'.
  set (le := fun a b : upload_row * string =>
               upload_id (fst b) <=? upload_id (fst a)).
  assert (Hrows : exists rest,
            select_recent_uploads (db w') = (row, username r) :: rest).
  { unfold select_recent_uploads. fold le. simpl.
    rewrite List.flat_map_app. simpl.
    rewrite (filter_unique_key user_id _ r Hk Hin). simpl.
    unfold order_by. rewrite List.fold_left_app. simpl.
    rewrite insert_by_front.
    - eexists. reflexivity.
    - intros [up n] Hy. fold (order_by le) in Hy.
      apply (Permutation_in _ (order_by_perm le _)) in Hy.
      apply joined_row_iff in Hy as [Hup _]. unfold le. simpl.
      apply Z.leb_gt. apply next_upload_id_fresh, Hup. }
  destruct Hrows as [rest Hrows]. rewrite Hrows.
  exists row, rest. eexists. split; [reflexivity|]. repeat split.
Qed.

End AfterUpload.

Lemma upload_then_download_witness :
  let req := upload_form "Marcaciones Enero.xlsx" [Byte.x31; Byte.x32] (noon 0) in
  let w' := final (@POST_upload demo req (demo_world (Some 1))) in
  result (@GET_uploads demo "/uploads/20260107_120000__Marcaciones_Enero.xlsx" w')
  = inr (Attachment
           "/srv/nexo/data/uploads/20260107_120000__Marcaciones_Enero.xlsx"
           [Byte.x31; Byte.x32]).
Proof.
  intros req w'.
  exact (f_equal result
           (@upload_then_download demo (demo_world (Some 1)) req
              {| filename := "Marcaciones Enero.xlsx";
                 content := [Byte.x31; Byte.x32] |}
              admin_row ltac:(discriminate) eq_refl eq_refl
              ltac:(discriminate) ltac:(vm_compute; reflexivity) eq_refl)).
Defined.

Lemma demo_db_keys : primary_keys demo_db.
Proof.
  split; simpl.
  - rewrite !NoDup_cons, !elem_of_cons, !elem_of_nil.
    intuition (try discriminate). apply NoDup_nil_2.
  - intros r [<-|[<-|[]]]; simpl; lia.
Qed.

Lemma upload_then_dashboard_witness :
  let req := upload_form "Marcaciones Enero.xlsx" [Byte.x31] (noon 0) in
  let w' := final (@POST_upload demo req (demo_world (Some 1))) in
  exists row rest admin_block,
    GET_dashboard w'
    = answers (unflashed w')
        (Html (page_in w'
                 (DashboardBody ((row, "admin") :: rest) admin_block)
                 APP_NAME "Sistema local RRHH"))
    /\ original_name row = "Marcaciones Enero.xlsx".
Proof.
  intros req w'.
  destruct (@upload_then_dashboard demo (demo_world (Some 1)) req
              {| filename := "Marcaciones Enero.xlsx"; content := [Byte.x31] |}
              admin_row demo_db_keys eq_refl ltac:(discriminate)
              ltac:(vm_compute; reflexivity) eq_refl)
    as (row & rest & ab & Hpage & Horig & _).
  exists row, rest, ab. split; [exact Hpage|exact Horig].
Defined.

(** ** Downloads and the other routes leave the store alone *)

Section ReadOnly.

Context {P : Platform}.

(** X16. [/uploads/<name>] only reads: the world at the end, and after each
    event, is the world at the start, no event is a write and no
    exception is raised.  For a name that matches the rule and is not
    [..], with a session that holds an id, when the storage root has no
    file of that name the answer is "not found" after one test of the
    path. *)
Theorem download_reads_only (w : world) (path : string) :
  let o := GET_uploads path w in
  final o = w
  /\ Forall (fun w' => w' = w) (states_of o)
  /\ Forall (fun e => is_write e = false) (events_of o)
  /\ (exists resp, result o = inr resp)
  /\ (forall name,
        match_uploads_rule path = Some name -> name <> ".." ->
        truthy (uid (sess w)) = true ->
        fs w !! PyPath.join storage_root name = None ->
        o = Outcome [(FsIsFile (PyPath.join storage_root name), w)] w
                    (inr NotFound)).
Proof.
  intros o. subst o. unfold GET_uploads.
  assert (Hshape : forall o : outcome response,
            final o = w -> Forall (fun w' => w' = w) (states_of o) ->
            Forall (fun e => is_write e = false) (events_of o) ->
            (exists resp, result o = inr resp) ->
            (forall name,
               match_uploads_rule path = Some name -> name <> ".." ->
               truthy (uid (sess w)) = true ->
               fs w !! PyPath.join storage_root name = None ->
               o = Outcome [(FsIsFile (PyPath.join storage_root name), w)] w
                           (inr NotFound)) ->
            final o = w
            /\ Forall (fun w' => w' = w) (states_of o)
            /\ Forall (fun e => is_write e = false) (events_of o)
            /\ (exists resp, result o = inr resp)
            /\ (forall name,
                  match_uploads_rule path = Some name -> name <> ".." ->
                  truthy (uid (sess w)) = true ->
                  fs w !! PyPath.join storage_root name = None ->
                  o = Outcome [(FsIsFile (PyPath.join storage_root name), w)]
                              w (inr NotFound))) by auto.
  destruct (match_uploads_rule path) as [name|] eqn:Hm.
  2:{ apply Hshape; try (repeat constructor); [eexists; reflexivity|].
      intros ? [=]. }
  pose proof Hm as Hm'.
  apply match_uploads_rule_some in Hm' as (_ & Hne & Hs).
  destruct (truthy (uid (sess w))) eqn:Hu.
  2:{ rewrite (login_required_anonymous _ _ Hu).
      apply Hshape; try (repeat constructor); [eexists; reflexivity|].
      intros; discriminate. }
  rewrite (login_required_bound _ _ Hu). unfold download_upload.
  rewrite send_from_directory_run, (safe_join_segment _ _ Hne Hs).
  fold storage_root.
  destruct (String.eqb_spec name "..") as [->|Hdd].
  { apply Hshape; try (repeat constructor); [eexists; reflexivity|].
    intros ? [= <-] Hc. contradiction. }
  destruct (fs w !! PyPath.join storage_root name) as [data|] eqn:Hfs.
  - apply Hshape; try (repeat constructor); [eexists; reflexivity|].
    intros ? [= <-] _ _ Hnone. congruence.
  - apply Hshape; try (repeat constructor); [eexists; reflexivity|].
    intros ? [= <-] _ _ _. reflexivity.
Qed.

Lemma login_run (w : world) :
  login w = answers (unflashed w) (Html (page_in w LoginBody APP_NAME "Login")).
Proof. apply render_page_run. Qed.

(** X17. [/], [/login] (both methods), [/logout], [/dashboard], [/users] and
    [/toggle-theme] never touch the store or the files and have no
    event; all of them but the login form and [/logout] also leave the
    user id of the session as it is. *)
Theorem routes_leave_store_alone (w : world) (req : request)
  (referer : option string) :
  let unchanged (o : outcome response) :=
    db (final o) = db w /\ fs (final o) = fs w /\ trace o = [] in
  let same_user (o : outcome response) :=
    uid (sess (final o)) = uid (sess w) in
  (unchanged (index w) /\ same_user (index w))
  /\ (unchanged (login w) /\ same_user (login w))
  /\ unchanged (login_post req w)
  /\ unchanged (logout w)
  /\ (unchanged (GET_dashboard w) /\ same_user (GET_dashboard w))
  /\ (unchanged (GET_users w) /\ same_user (GET_users w))
  /\ (unchanged (toggle_theme referer w)
      /\ same_user (toggle_theme referer w)).
Proof.
  intros unchanged same_user. subst unchanged same_user. cbv beta.
  split; [|split; [|split; [|split; [|split; [|split]]]]].
  - unfold index. run. destruct (truthy (uid (sess w))); repeat split.
  - rewrite login_run. repeat split.
  - rewrite login_post_run.
    destruct (select_active_user_by_username _ _) as [r|]; [|repeat split].
    destruct (check_password_hash _ _); repeat split.
  - repeat split.
  - unfold GET_dashboard. destruct (truthy (uid (sess w))) eqn:Hu.
    + rewrite (login_required_bound _ _ Hu), dashboard_run.
      destruct (resolved_user w); repeat split.
    + rewrite (login_required_anonymous _ _ Hu). repeat split.
  - unfold GET_users. destruct (truthy (uid (sess w))) eqn:Hu.
    + rewrite (login_required_bound _ _ Hu).
      destruct (authorized (resolved_user w) [SUPERADMIN; ADMIN]) eqn:Ha.
      * rewrite (require_roles_allowed _ _ _ Ha), users_run. repeat split.
      * rewrite (require_roles_denied _ _ _ Ha). repeat split.
    + rewrite (login_required_anonymous _ _ Hu). repeat split.
  - rewrite toggle_theme_run. repeat split.
Qed.

End ReadOnly.

(** ** Names that pass the check of the extension *)

Section Extensions.

Import PyStr PyPath.

Lemma lower_app (a b : string) : lower (a ++ b) = (lower a ++ lower b)%string.
Proof.
  induction a as [|c a IH]; [reflexivity|].
  change (String c a ++ b)%string with (String c (a ++ b)).
  cbn [lower]. rewrite IH. reflexivity.
Qed.

Lemma lower_char_keeps (c d : ascii) :
  d = slash \/ d = dot -> Ascii.eqb d (lower_char c) = Ascii.eqb d c.
Proof.
  intros [-> | ->];
    destruct c as [[] [] [] [] [] [] [] []]; vm_compute; reflexivity.
Qed.

Lemma has_char_lower (d : ascii) (s : string) :
  d = slash \/ d = dot -> has_char d (lower s) = has_char d s.
Proof.
  intros Hd. induction s as [|c s IH]; [reflexivity|].
  cbn [lower has_char]. rewrite IH, (lower_char_keeps c d Hd). reflexivity.
Qed.

Lemma name_segment (s : string) :
  s <> "" -> s <> "." -> has_char slash s = false -> name s = s.
Proof.
  intros Hne Hdot Hs. unfold name. rewrite (split_no_sep s Hs).
  cbn [List.filter].
  destruct (String.eqb_spec s ""); [contradiction|].
  destruct (String.eqb_spec s "."); [contradiction|]. reflexivity.
Qed.

Lemma rfind_from_none (c : ascii) (s : string) :
  has_char c s = false -> rfind_from c s = None.
Proof.
  induction s as [|d s IH]; [reflexivity|]. cbn [has_char rfind_from].
  intros [Hd Hs]%orb_false_elim. rewrite (IH Hs), Hd. reflexivity.
Qed.

Lemma rfind_from_last (c : ascii) (a b : string) :
  has_char c b = false ->
  rfind_from c (a ++ String c b) = Some (String.length a, String c b).
Proof.
  intros Hb. induction a as [|d a IH].
  - change ("" ++ String c b)%string with (String c b). cbn [rfind_from].
    rewrite (rfind_from_none c b Hb), Ascii.eqb_refl. reflexivity.
  - change (String d a ++ String c b)%string with (String d (a ++ String c b)).
    cbn [rfind_from]. rewrite IH. reflexivity.
Qed.

(** A plain file name [base.ext] whose extension is [xlsx] or [xls] in
    any mix of capitals has an allowed suffix. *)
Lemma excel_suffix_allowed (base ext : string) :
  base <> "" -> has_char slash base = false ->
  lower ext = "xlsx" \/ lower ext = "xls" ->
  lower (suffix (base ++ "." ++ ext)) ∈ ALLOWED_EXT.
Proof.
  intros Hb Hs Hext.
  assert (Hfacts : ext <> "" /\ has_char dot ext = false
                   /\ has_char slash ext = false).
  { rewrite <- (has_char_lower dot ext), <- (has_char_lower slash ext) by auto.
    destruct Hext as [H|H]; rewrite H;
      (split; [intros ->; discriminate H|]); split; reflexivity. }
  destruct Hfacts as (Hne & Hd & Hsl).
  assert (Hname : name (base ++ "." ++ ext) = (base ++ "." ++ ext)%string).
  { apply name_segment.
    - destruct base; [contradiction|discriminate].
    - destruct base as [|c [|c' b]]; [contradiction| |discriminate].
      destruct ext; [contradiction|discriminate].
    - rewrite !has_char_app, Hs, Hsl. reflexivity. }
  unfold suffix. rewrite Hname.
  change ("." ++ ext)%string with (String dot ext).
  rewrite (rfind_from_last dot base ext Hd), !length_append.
  replace ((0 <? String.length base)%nat
           && (String.length base
               <? String.length base + String.length (String dot ext) - 1)%nat)
    with true.
  - cbn [lower]. change (lower_char dot) with dot.
    destruct Hext as [-> | ->]; vm_compute; reflexivity.
  - symmetry. apply andb_true_intro. split; apply Nat.ltb_lt.
    + destruct base; [contradiction|simpl; lia].
    + destruct ext; [contradiction|simpl; lia].
Qed.

End Extensions.

(** X18. An upload by a live user of a file with a plain name [base.ext],
    [ext] being [xlsx] or [xls] in any mix of capitals, goes through:
    the file is written, then the row is inserted with the name as it
    was sent, and the answer is the redirect to the dashboard. *)
Theorem upload_accepts_excel_names {P : Platform} (w : world)
  (req : request) (f : file_storage) (r : user_row) (base ext : string) :
  filename f = (base ++ "." ++ ext)%string ->
  base <> "" -> PyStr.has_char PyPath.slash base = false ->
  PyStr.lower ext = "xlsx" \/ PyStr.lower ext = "xls" ->
  files_file req = Some f ->
  resolved_user w = Some r ->
  exists row,
    events_of (POST_upload req w)
    = [FsWrite (upload_path (stored_name_for (now req) (filename f)))
               (content f);
       DbInsertUpload row]
    /\ original_name row = filename f
    /\ uploaded_by row = user_id r
    /\ result (POST_upload req w) = inr (Redirect "/dashboard").
Proof.
  intros Hname Hb Hs Hext Hf Hr.
  assert (Hn : filename f <> "").
  { rewrite Hname. destruct base; [contradiction|discriminate]. }
  assert (He : PyStr.lower (PyPath.suffix (filename f)) ∈ ALLOWED_EXT)
    by (rewrite Hname; apply excel_suffix_allowed; assumption).
  rewrite (POST_upload_accepted w req f r Hf Hn He Hr).
  eexists. split; [reflexivity|]. repeat split.
Qed.

Lemma upload_accepts_excel_names_witness :
  exists row,
    events_of (@POST_upload demo (upload_form "Enero.XLSX" [] (noon 0))
                 (demo_world (Some 1)))
    = [FsWrite "/srv/nexo/data/uploads/20260107_120000__Enero.XLSX" [];
       DbInsertUpload row]
    /\ original_name row = "Enero.XLSX".
Proof.
  destruct (@upload_accepts_excel_names demo (demo_world (Some 1))
              (upload_form "Enero.XLSX" [] (noon 0))
              {| filename := "Enero.XLSX"; content := [] |}
              admin_row "Enero" "XLSX" eq_refl ltac:(discriminate) eq_refl
              (or_introl eq_refl) eq_refl eq_refl)
    as (row & Hev & Horig & _).
  exists row. split; [exact Hev|exact Horig].
Defined.

Lemma login_then_current_user_witness :
  resolved_user
    (final (@login_post demo (login_form "admin" "admin123" (noon 0))
              (demo_world None)))
  = Some admin_row.
Proof.
  apply (@login_then_current_user demo (demo_world None)
           (login_form "admin" "admin123" (noon 0)) admin_row
           demo_db_unique demo_db_keys).
  unfold credentials_ok. simpl.
  split; [left; reflexivity|]. repeat split; reflexivity.
Defined.
